(** * selenium-assistant: local browsers, discovery and driver teardown

    A shallow embedding of [src/browser-models/local-browser.js] (class
    [LocalBrowser]) and of [src/index.js] (class [SeleniumAssistant]),
    followed by the properties of these two classes.

    JavaScript objects are records, a method that reads or writes [this],
    the file system or the process table is a function in a state and
    exception monad, and a promise is described by the moment it settles
    on the timer clock and by its outcome. *)

From Stdlib Require Import String Ascii ZArith NArith List Bool Arith Lia.
From Stdlib Require Import DecimalString.
Import ListNotations.

Local Open Scope string_scope.
Local Open Scope Z_scope.

(** ** Values and exceptions *)

(** What a [throw] carries: [new Error(message)] or the [TypeError] the
    runtime raises on a property read of [undefined]/[null] or on a call of
    a non-function. *)
Inductive exn : Type :=
| Error (message : string)
| TypeError (message : string).

(** The JavaScript values the two classes look at.  [VObj] is an object
    without any of the properties the code reads ([quit], [then]); the
    number is its identity.  [VErr] is an error object held as a value. *)
Inductive jsval : Type :=
| VUndefined
| VNull
| VBool (b : bool)
| VNum (n : Z)
| VStr (s : string)
| VObj (id : nat)
| VErr (e : exn).

Inductive result (A : Type) : Type :=
| Ok (a : A)
| Throw (e : exn).

Arguments Ok {A} a.
Arguments Throw {A} e.

(** Sequencing of steps that may throw, outside any method. *)
Definition and_then {A B} (r : result A) (k : A -> result B) : result B :=
  match r with
  | Ok a => k a
  | Throw e => Throw e
  end.

Definition string_nonempty (s : string) : bool :=
  match s with
  | EmptyString => false
  | String _ _ => true
  end.

(** [if (v)]: ToBoolean. *)
Definition truthy (v : jsval) : bool :=
  match v with
  | VUndefined | VNull => false
  | VBool b => b
  | VNum n => negb (n =? 0)
  | VStr s => string_nonempty s
  | VObj _ | VErr _ => true
  end.

(** [a === b] on the values above. *)
Definition strict_eq (a b : jsval) : bool :=
  match a, b with
  | VUndefined, VUndefined => true
  | VNull, VNull => true
  | VBool x, VBool y => Bool.eqb x y
  | VNum x, VNum y => x =? y
  | VStr x, VStr y => String.eqb x y
  | VObj x, VObj y => Nat.eqb x y
  | _, _ => false
  end.

(** ** Promises on the timer clock

    Times are milliseconds counted from the call that creates the promise.
    A promise is [None] when it never settles and [Some (t, o)] when it
    settles [t] ms after its creation with outcome [o].  Callbacks run at
    the instant their promise settles; a timer fires exactly at its delay.
    Settlement values are plain values (never thenables themselves). *)
Module Promise.

Definition time : Type := N.

Inductive outcome (A : Type) : Type :=
| Fulfilled (v : A)
| Rejected (e : exn).

Arguments Fulfilled {A} v.
Arguments Rejected {A} e.

Definition t (A : Type) : Type := option (time * outcome A).

(** [Promise.resolve(v)] for a [v] that is not a thenable. *)
Definition resolve {A} (v : A) : t A := Some (0%N, Fulfilled v).

(** [Promise.reject(e)]. *)
Definition reject {A} (e : exn) : t A := Some (0%N, Rejected e).

(** One call of the [resolve] or [reject] function handed to an executor:
    the instant of the call and what it settles the promise with. *)
Definition settlement (A : Type) : Type := (time * outcome A)%type.

(** [setTimeout(() => cb, ms)] for a callback that settles a promise. *)
Definition setTimeout {A} (cb : outcome A) (ms : time) : settlement A :=
  (ms, cb).

(** The first settlement wins, later calls of [resolve] are ignored; of
    two calls at the same instant the one registered first runs first. *)
Fixpoint first_settlement {A} (calls : list (option (settlement A)))
  : t A :=
  match calls with
  | [] => None
  | None :: rest => first_settlement rest
  | Some (d, o) :: rest =>
      match first_settlement rest with
      | Some (d', o') => if (d' <? d)%N then Some (d', o') else Some (d, o)
      | None => Some (d, o)
      end
  end.

(** [new Promise(executor)].  The executor either runs to its end, having
    arranged the given calls of [resolve]/[reject] (a call that never
    happens is [None]), or throws before any of them has run, which
    rejects the promise on the spot. *)
Definition new {A} (executor : result (list (option (settlement A))))
  : t A :=
  match executor with
  | Ok calls => first_settlement calls
  | Throw e => reject e
  end.

(** [p.then(onFulfilled)]: a rejection passes through; on fulfilment the
    promise returned by the callback is awaited, its clock starting when
    the callback runs. *)
Definition then_ {A B} (p : t A) (onFulfilled : A -> t B) : t B :=
  match p with
  | None => None
  | Some (d, Rejected e) => Some (d, Rejected e)
  | Some (d, Fulfilled v) =>
      match onFulfilled v with
      | None => None
      | Some (d', o) => Some ((d + d')%N, o)
      end
  end.

(** [p.then(onFulfilled, onRejected)] with callbacks that only call a
    [resolve] function: when, if ever, that call happens and with what. *)
Definition then_call {A B} (p : t A) (onFulfilled : A -> outcome B)
    (onRejected : exn -> outcome B) : option (settlement B) :=
  match p with
  | None => None
  | Some (d, Fulfilled v) => Some (d, onFulfilled v)
  | Some (d, Rejected e) => Some (d, onRejected e)
  end.


End Promise.

(** ** The world outside the process and the monad of methods *)

(** A module handed back by [require]: the code only reads its [path]. *)
Record NodeModule : Type := {
  module_path : jsval
}.

(** What the code can observe of its host.  [execSync] may answer
    differently each time it is asked: it is indexed by the number of
    commands run before.  [spawned] records the commands run so far, the
    latest first.  Loading a driver module may itself put the driver on the
    search path: [require] is given the current [process.env.PATH] and
    hands back, with the module or the exception, the [PATH] it leaves. *)
Record World : Type := {
  platform : string;                               (* process.platform *)
  env_PATH : string;                               (* process.env.PATH *)
  lstatSync : string -> result unit;               (* fs.lstatSync *)
  execSync : nat -> string -> result string;       (* child_process.execSync(..).toString() *)
  spawned : list string;
  require : jsval -> string -> result NodeModule * string;
  path_dirname : jsval -> result string;           (* path.dirname *)
  path_delimiter : string                          (* path.delimiter *)
}.

(** The configuration object handed to the constructor: the class reads
    its [_prettyName]. *)
Record Config : Type := {
  config_prettyName : jsval                        (* config._prettyName *)
}.

(** The fields of a [LocalBrowser] instance. *)
Record Fields : Type := {
  _config : Config;
  _prettyName : string;
  _release : jsval;
  _blacklist : list (Z * string);
  _rawVerstionString : jsval
}.

Record State : Type := {
  this : Fields;
  world : World
}.

(** A method body: it returns or throws, and in both cases leaves a state
    behind (what was written before a [throw] stays written). *)
Definition M (A : Type) : Type := State -> result A * State.

Definition ret {A} (a : A) : M A := fun s => (Ok a, s).

Definition throw {A} (e : exn) : M A := fun s => (Throw e, s).

Definition bind {A B} (m : M A) (k : A -> M B) : M B :=
  fun s =>
    match m s with
    | (Ok a, s') => k a s'
    | (Throw e, s') => (Throw e, s')
    end.

(** [try { body } catch (err) { handler }]. *)
Definition try_catch {A} (body : M A) (handler : exn -> M A) : M A :=
  fun s =>
    match body s with
    | (Ok a, s') => (Ok a, s')
    | (Throw e, s') => handler e s'
    end.

Definition gets {A} (f : State -> A) : M A := fun s => (Ok (f s), s).

Definition modify (f : State -> State) : M unit := fun s => (Ok tt, f s).

Definition lift {A} (r : result A) : M A := fun s => (r, s).

Declare Scope js_scope.
Delimit Scope js_scope with js.

Notation "x <- m ;; k" := (bind m (fun x => k))
  (at level 61, m at next level, right associativity) : js_scope.
Notation "m ;;; k" := (bind m (fun _ => k))
  (at level 61, right associativity) : js_scope.

Local Open Scope js_scope.

Definition set_rawVerstionString (v : jsval) : M unit :=
  modify (fun s =>
    {| this := {| _config := _config (this s);
                  _prettyName := _prettyName (this s);
                  _release := _release (this s);
                  _blacklist := _blacklist (this s);
                  _rawVerstionString := v |};
       world := world s |}).

Definition with_world (f : World -> World) : M unit :=
  modify (fun s => {| this := this s; world := f (world s) |}).

(** [fs.lstatSync(p)]. *)
Definition fs_lstatSync (p : string) : M unit :=
  fun s => (lstatSync (world s) p, s).

(** [execSync(command).toString()]: the command is run (and recorded)
    whether or not it succeeds. *)
Definition child_process_execSync (command : string) : M string :=
  fun s =>
    let w := world s in
    (execSync w (length (spawned w)) command,
     {| this := this s;
        world := {| platform := platform w;
                    env_PATH := env_PATH w;
                    lstatSync := lstatSync w;
                    execSync := execSync w;
                    spawned := command :: spawned w;
                    require := require w;
                    path_dirname := path_dirname w;
                    path_delimiter := path_delimiter w |} |}).

(** How many times the external process has been run. *)
Definition probes (s : State) : nat := length (spawned (world s)).

(** What a call hands back when the caller goes on to read [.then] of it:
    a plain value, or an object with a [then] method, seen as the promise
    it stands for. *)
Inductive returned : Type :=
| Plain (v : jsval)
| Thenable (p : Promise.t jsval).

(** A thenable handed on as it is. *)
Definition as_promise (x : returned) : Promise.t jsval :=
  match x with
  | Thenable p => p
  | Plain v => Promise.resolve v
  end.

(** [Promise.resolve(x)]: a plain value fulfils the promise at once, a
    thenable is followed. *)
Definition Promise_resolve (x : returned) : Promise.t jsval :=
  match x with
  | Plain v => Promise.resolve v
  | Thenable p => p
  end.

(** A selenium-webdriver [Builder], as far as the code uses it. *)
Record Builder : Type := {
  build : result returned
}.

(** ** The class [LocalBrowser] *)

(** The methods a concrete browser class supplies or inherits.  The parent
    class [Browser] (browser.js) and the concrete families lie outside the
    two files embedded here: [Browser_constructor], [getId] and
    [getDriverModule] stand for the parent's members, and the rest are the
    methods [LocalBrowser] declares for overriding. *)
Record Class : Type := {
  Browser_constructor : Config -> result unit;               (* super(config) *)
  getId : M jsval;
  getDriverModule : M jsval;
  getPrettyReleaseNames : result (list (string * string));   (* static *)
  getExecutablePath : M (option string);                     (* String or null *)
  isBlackListed : M bool;
  getVersionNumber : M Z;
  getSeleniumDriverBuilder : M Builder;
  _getMinSupportedVersion : M (option Z)                     (* false or a number *)
}.

Module LocalBrowser.

(** The bodies [LocalBrowser] itself gives to the overridable methods. *)
Definition abstract (super : Config -> result unit)
    (getId getDriverModule : M jsval) : Class :=
  {| Browser_constructor := super;
     getId := getId;
     getDriverModule := getDriverModule;
     getPrettyReleaseNames :=
       Throw (Error "getPrettyReleaseNames() must be overriden by subclasses");
     getExecutablePath :=
       throw (Error "getExecutablePath() must be overriden by subclasses");
     isBlackListed := ret false;
     getVersionNumber :=
       throw (Error "getVersionNumber() must be overriden by subclasses");
     getSeleniumDriverBuilder :=
       throw (Error "getSeleniumDriverBuilder() must be overriden by subclasses");
     _getMinSupportedVersion := ret None |}.

(** [typeof v === 'string' && v.length !== 0]. *)
Definition nonempty_string (v : jsval) : bool :=
  match v with
  | VStr s => string_nonempty s
  | _ => false
  end.

(** [obj[key]] on an object literal with string values. *)
Fixpoint lookup (key : jsval) (obj : list (string * string)) : jsval :=
  match obj with
  | [] => VUndefined
  | (k, v) :: rest =>
      if strict_eq (VStr k) key then VStr v else lookup key rest
  end.

(** The text of a value that is a string. *)
Definition text (v : jsval) : string :=
  match v with
  | VStr s => s
  | _ => EmptyString
  end.

(** [constructor(config, release, blacklist)]. *)
Definition constructor (C : Class) (config : Config) (release : jsval)
    (blacklist : list (Z * string)) : result Fields :=
  and_then (Browser_constructor C config) (fun _ =>
  if negb (nonempty_string (config_prettyName config)) then
    Throw (Error "Invalid prettyName value: ")
  else if negb (strict_eq release (VStr "stable"))
          && negb (strict_eq release (VStr "beta"))
          && negb (strict_eq release (VStr "unstable")) then
    Throw (Error "Unexpected browser release given: ")
  else
    let prettyName := text (config_prettyName config) in
    and_then (getPrettyReleaseNames C) (fun releaseNames =>
    Ok {| _config := config;
          _prettyName :=
            if truthy (lookup release releaseNames)
            then prettyName ++ " " ++ text (lookup release releaseNames)
            else prettyName;
          _release := release;
          _blacklist := blacklist;
          _rawVerstionString := VUndefined |})).

(** [!executablePath] for a String or null. *)
Definition no_path (executablePath : option string) : bool :=
  match executablePath with
  | Some p => negb (string_nonempty p)
  | None => true
  end.

Definition path_of (executablePath : option string) : string :=
  match executablePath with
  | Some p => p
  | None => EmptyString
  end.

(** [if (minVersion)] for [false] or a number. *)
Definition has_minimum (minVersion : option Z) : bool :=
  match minVersion with
  | Some m => negb (m =? 0)
  | None => false
  end.

Definition minimum (minVersion : option Z) : Z :=
  match minVersion with
  | Some m => m
  | None => 0
  end.

(** The body of the [try] block of [isValid]. *)
Definition isValid_probe (C : Class) (executablePath : string) : M bool :=
  fs_lstatSync executablePath ;;;
  minVersion <- _getMinSupportedVersion C ;;
  if has_minimum minVersion then
    version <- getVersionNumber C ;;
    ret (version >=? minimum minVersion)
  else
    blackListed <- isBlackListed C ;;
    if blackListed then ret false else ret true.

Definition isValid (C : Class) : M bool :=
  executablePath <- getExecutablePath C ;;
  if no_path executablePath then ret false
  else
    try_catch (isValid_probe C (path_of executablePath))
              (fun _ => ret false).

Definition getPrettyName : M string :=
  gets (fun s => _prettyName (this s)).

(** The command line [`"${executablePath}" --version`]. *)
Definition version_command (executablePath : string) : string :=
  String "034" (executablePath ++ String "034" " --version").

Definition getRawVersionString (C : Class) : M jsval :=
  cached <- gets (fun s => _rawVerstionString (this s)) ;;
  if truthy cached then ret cached
  else
    executablePath <- getExecutablePath C ;;
    if no_path executablePath then ret VNull
    else
      set_rawVerstionString VNull ;;;
      try_catch
        (out <- child_process_execSync
                  (version_command (path_of executablePath)) ;;
         set_rawVerstionString (VStr out))
        (fun _ => ret tt) ;;;
      gets (fun s => _rawVerstionString (this s)).

(** [process.env.PATH += path.delimiter + dir]. *)
Definition append_PATH (dir : string) : M unit :=
  with_world (fun w =>
    {| platform := platform w;
       env_PATH := env_PATH w ++ path_delimiter w ++ dir;
       lstatSync := lstatSync w;
       execSync := execSync w;
       spawned := spawned w;
       require := require w;
       path_dirname := path_dirname w;
       path_delimiter := path_delimiter w |}).

(** [require(name)]: the module is loaded, which may change
    [process.env.PATH] whether or not the load succeeds. *)
Definition node_require (name : jsval) : M NodeModule :=
  fun s =>
    let w := world s in
    let loaded := require w name (env_PATH w) in
    (fst loaded,
     {| this := this s;
        world := {| platform := platform w;
                    env_PATH := snd loaded;
                    lstatSync := lstatSync w;
                    execSync := execSync w;
                    spawned := spawned w;
                    require := require w;
                    path_dirname := path_dirname w;
                    path_delimiter := path_delimiter w |} |}).

(** [path.dirname(p)], asked of the host. *)

Definition node_path_dirname (p : jsval) : M string :=
  fun s => (path_dirname (world s) p, s).

(** The first statement of [getSeleniumDriver]: load the driver module,
    if the browser names one. *)
Definition loadDriverModule (C : Class) : M unit :=
  hasDriverModule <- getDriverModule C ;;
  if truthy hasDriverModule then
    try_catch
      (name <- getDriverModule C ;;
       driverModule <- node_require name ;;
       id <- getId C ;;
       if strict_eq id (VStr "opera") then
         dir <- node_path_dirname (module_path driverModule) ;;
         append_PATH dir
       else ret tt)
      (fun _ => ret tt)
  else ret tt.

(** [buildResult.then], as a condition. *)
Definition has_then (buildResult : returned) : result bool :=
  match buildResult with
  | Plain VUndefined | Plain VNull =>
      Throw (TypeError "Cannot read property 'then' of undefined")
  | Plain _ => Ok false
  | Thenable _ => Ok true
  end.

(** The [try] block that ends [getSeleniumDriver], with its handler. *)
Definition buildDriver (C : Class) : M (Promise.t jsval) :=
  try_catch
    (builder <- getSeleniumDriverBuilder C ;;
     buildResult <- lift (build builder) ;;
     isThenable <- lift (has_then buildResult) ;;
     if isThenable then ret (as_promise buildResult)
     else ret (Promise_resolve buildResult))
    (fun err => ret (Promise.reject err)).

Definition getSeleniumDriver (C : Class) : M (Promise.t jsval) :=
  loadDriverModule C ;;;
  buildDriver C.

Definition getReleaseName : M jsval :=
  gets (fun s => _release (this s)).

End LocalBrowser.

(** ** The class [SeleniumAssistant] (index.js) *)

(** A browser object: its class and its fields. *)
Record Browser : Type := {
  class_of : Class;
  fields : Fields
}.

(** Calling a method on one browser of an array, in a given world. *)
Definition send {A} (b : Browser) (method : Class -> M A) (w : World)
  : result A * Browser * World :=
  match method (class_of b) {| this := fields b; world := w |} with
  | (r, s) => (r, {| class_of := class_of b; fields := this s |}, world s)
  end.

(** A driver handle, as [killWebDriver] inspects it: [undefined], [null],
    or a value whose [quit] property is either some datum ([undefined]
    when the property is missing) or a function; calling the function
    throws or hands something back. *)
Inductive member : Type :=
| Data (v : jsval)
| Method (call : result returned).

Inductive Handle : Type :=
| HUndefined
| HNull
| HObject (quit : member).

(** Whether the handle has a [quit] that can be called. *)
Definition has_quit_method (driver : Handle) : bool :=
  match driver with
  | HObject (Method _) => true
  | _ => false
  end.

(** What a call of [killWebDriver] does besides returning a promise. *)
Inductive Effect : Type :=
| CallQuit
| SetTimeout (ms : N)
| ClearTimeout.

Module SeleniumAssistant.

Import Promise.

(** [array.filter(callback)] with a callback that may throw and that
    may write to the element it is given and to the world. *)
Fixpoint Array_filter
    (callback : Browser -> World -> result bool * Browser * World)
    (array : list Browser) (w : World) : result (list Browser) * World :=
  match array with
  | [] => (Ok [], w)
  | b :: rest =>
      match callback b w with
      | (Throw e, _, w') => (Throw e, w')
      | (Ok keep, b', w') =>
          match Array_filter callback rest w' with
          | (Ok kept, w'') => (Ok (if keep then b' :: kept else kept), w'')
          | (Throw e, w'') => (Throw e, w'')
          end
      end
  end.

Definition unsupported_platform (w : World) : bool :=
  negb (String.eqb (platform w) "darwin")
  && negb (String.eqb (platform w) "linux").

Section Discovery.

(** [browserManager.getSupportedBrowsers()], from browser-manager.js,
    which lies outside the two files embedded here. *)
Variable getSupportedBrowsers : World -> result (list Browser) * World.

Definition getLocalBrowsers (w : World)
  : result (list Browser) * World :=
  if unsupported_platform w then
    (Throw (Error "Sorry this library only supports OS X and Linux."), w)
  else
    match getSupportedBrowsers w with
    | (Throw e, w') => (Throw e, w')
    | (Ok webdriveBrowsers, w') =>
        Array_filter
          (fun webdriverBrowser => send webdriverBrowser LocalBrowser.isValid)
          webdriveBrowsers w'
    end.

End Discovery.

(** The executor of the first promise of [killWebDriver]: the calls of
    [resolve] it arranges, unless [driver.quit()] or the read of [.then]
    throws. *)
Definition quit_executor (call : result returned)
  : result (list (option (settlement jsval))) :=
  let quitTimeout := setTimeout (Fulfilled VUndefined) 2000%N in
  and_then call (fun quitResult =>
  match quitResult with
  | Plain _ =>
      Throw (TypeError "driver.quit(...).then is not a function")
  | Thenable p =>
      Ok [Some quitTimeout;
          then_call p Fulfilled (fun err => Fulfilled (VErr err))]
  end).

Definition killWebDriver (driver : Handle)
  : Promise.t jsval * list Effect :=
  match driver with
  | HUndefined | HNull => (Promise.resolve VUndefined, [])
  | HObject (Data _) =>
      (Promise.reject
         (Error "Unable to find a quit method on the web driver."), [])
  | HObject (Method call) =>
      let first := Promise.new (quit_executor call) in
      (then_ first (fun _ =>
         Promise.new (Ok [Some (setTimeout (Fulfilled VUndefined) 2000%N)])),
       ([SetTimeout 2000%N; CallQuit]
        ++ match first with
           | Some (_, Fulfilled _) => [ClearTimeout; SetTimeout 2000%N]
           | _ => []
           end)%list)
  end.

End SeleniumAssistant.


(** The contract of [getExecutablePath]: a path or null, not an exception. *)
Definition path_lookup_returns (C : Class) : Prop :=
  forall s, exists p s', getExecutablePath C s = (Ok p, s').

(** ** Concrete browser families and hosts *)

(** Modelled from the spec: the override of [isBlackListed] in the concrete
    browser families, whose files lie outside the two embedded here; it
    consults the blacklist table keyed by the resolved version number. *)
Definition isBlackListed_by_table (getVersionNumber : M Z) : M bool :=
  version <- getVersionNumber ;;
  blacklist <- gets (fun s => _blacklist (this s)) ;;
  ret (existsb (fun entry => fst entry =? version) blacklist).

Module Fixtures.

(** A host with the given platform, installed files and answers of the
    browser executable; no command has been run yet. *)
Definition host (platform : string) (installed : list string)
    (answers : nat -> string -> result string) : World :=
  {| platform := platform;
     env_PATH := "/usr/bin";
     lstatSync := fun p =>
       if existsb (String.eqb p) installed then Ok tt
       else Throw (Error "ENOENT: no such file or directory");
     execSync := answers;
     spawned := [];
     require := fun name PATH =>
       (Ok {| module_path := VStr "/opt/driver/bin/driver" |},
        if strict_eq name (VStr "operadriver") then PATH
        else PATH ++ ":/opt/driver/bin");
     path_dirname := fun _ => Ok "/opt/driver/bin";
     path_delimiter := ":" |}.

(** A family in the style of the concrete classes: a fixed install
    location, a version number, a minimum supported version (or none)
    and the table-driven blacklist check. *)
Definition family (executablePath : option string) (version : Z)
    (minVersion : option Z) (builder : M Builder) : Class :=
  {| Browser_constructor := fun _ => Ok tt;
     getId := ret (VStr "chrome");
     getDriverModule := ret (VStr "chromedriver");
     getPrettyReleaseNames := Ok [("stable", "Stable"); ("beta", "Beta")];
     getExecutablePath := ret executablePath;
     isBlackListed := isBlackListed_by_table (ret version);
     getVersionNumber := ret version;
     getSeleniumDriverBuilder := builder;
     _getMinSupportedVersion := ret minVersion |}.

(** A subclass that supplies the release names and nothing else. *)
Definition bare : Class :=
  let base := LocalBrowser.abstract (fun _ => Ok tt) (ret (VStr "chrome"))
                (ret (VStr "chromedriver")) in
  {| Browser_constructor := Browser_constructor base;
     getId := getId base;
     getDriverModule := getDriverModule base;
     getPrettyReleaseNames := Ok [("beta", "Beta")];
     getExecutablePath := getExecutablePath base;
     isBlackListed := isBlackListed base;
     getVersionNumber := getVersionNumber base;
     getSeleniumDriverBuilder := getSeleniumDriverBuilder base;
     _getMinSupportedVersion := _getMinSupportedVersion base |}.

Definition chrome_path : string := "/usr/bin/google-chrome".

Definition config : Config := {| config_prettyName := VStr "Google Chrome" |}.

(** The instance [new C(config, release, blacklist)], or an instance with
    empty fields if the constructor throws. *)
Definition instance (C : Class) (release : string)
    (blacklist : list (Z * string)) : Fields :=
  match LocalBrowser.constructor C config (VStr release) blacklist with
  | Ok o => o
  | Throw _ =>
      {| _config := config; _prettyName := EmptyString;
         _release := VUndefined; _blacklist := [];
         _rawVerstionString := VUndefined |}
  end.

Definition no_builder : M Builder :=
  throw (Error "getSeleniumDriverBuilder() must be overriden by subclasses").

(** Chrome 54 at its usual place, with a minimum supported version of 50
    and a blacklist that names version 54. *)
Definition chrome54 : Class :=
  family (Some chrome_path) 54 (Some 50) no_builder.

Definition chrome54_state : State :=
  {| this := instance chrome54 "stable" [(54, "2.24")];
     world := host "linux" [chrome_path] (fun _ _ => Ok "Google Chrome 54.0.2840.59") |}.

(** The same browser without a minimum supported version. *)
Definition chrome54_nomin : Class :=
  family (Some chrome_path) 54 None no_builder.

(** A browser whose executable fails on the first run and answers on the
    second. *)
Definition flaky_answers (n : nat) (command : string) : result string :=
  match n with
  | O => Throw (Error "Command failed")
  | S _ => Ok "Google Chrome 54.0.2840.59"
  end.

Definition flaky_state : State :=
  {| this := instance chrome54_nomin "stable" [];
     world := host "linux" [chrome_path] flaky_answers |}.

Definition bare_state : State :=
  {| this := instance bare "beta" [];
     world := host "linux" [chrome_path] flaky_answers |}.

(** A family whose builder hands the session back directly. *)
Definition session : jsval := VObj 1.

Definition chrome_direct : Class :=
  family (Some chrome_path) 54 None
         (ret {| build := Ok (Plain session) |}).


Definition not_a_driver : Handle := HObject (Data VUndefined).

(** A host on which Chrome 54 is installed and a second browser is not;
    the family of the first has no minimum version and no blacklist
    entry. *)
Definition installed : Browser :=
  {| class_of := chrome54_nomin;
     fields := instance chrome54_nomin "stable" [] |}.

Definition missing : Browser :=
  {| class_of := family None (-1) None no_builder;
     fields := instance chrome54_nomin "beta" [] |}.

Definition linux_host : World :=
  host "linux" [chrome_path] (fun _ _ => Ok "Google Chrome 54.0.2840.59").

Definition supported (w : World) : result (list Browser) * World :=
  (Ok [installed; missing], w).

End Fixtures.

(** ** The table of [printAvailableBrowserInfo] (index.js) *)

Module Table.

(** A cell of the table: a string, or null where the executable path of a
    browser is not known. *)
Definition cell : Type := option string.

(** [number.toString()] for a whole number. *)
Definition Number_toString (n : Z) : string :=
  NilZero.string_of_int (Z.to_int n).

(** [row[i].length]. *)
Definition column_length (row : list cell) (i : nat) : result nat :=
  match nth_error row i with
  | Some (Some column) => Ok (String.length column)
  | Some None => Throw (TypeError "Cannot read property 'length' of null")
  | None => Throw (TypeError "Cannot read property 'length' of undefined")
  end.

(** The inner [rows.forEach] of the width loop: the running maximum of
    [row[i].length]. *)
Fixpoint max_length (rows : list (list cell)) (i currentRowMaxLength : nat)
  : result nat :=
  match rows with
  | [] => Ok currentRowMaxLength
  | row :: rest =>
      and_then (column_length row i) (fun n =>
      max_length rest i (Nat.max currentRowMaxLength n))
  end.

(** [for (let i = ...; i < noOfColumns; i++)], with [count] columns left. *)
Fixpoint rowLengths_from (rows : list (list cell)) (i count : nat)
  : result (list nat) :=
  match count with
  | O => Ok []
  | S count' =>
      and_then (max_length rows i 0) (fun m =>
      and_then (rowLengths_from rows (S i) count') (fun rest =>
      Ok (m :: rest)))
  end.

(** [s.repeat(n)]. *)
Fixpoint repeat_string (s : string) (n : nat) : string :=
  match n with
  | O => EmptyString
  | S n' => s ++ repeat_string s n'
  end.

Definition newline : string := String "010" EmptyString.

(** The text made of the given lines, each ended by a newline. *)
Fixpoint unlines (lines : list string) : string :=
  match lines with
  | [] => EmptyString
  | line :: rest => line ++ newline ++ unlines rest
  end.

(** The callback of [row.map]: the coloured column, padded on the right up
    to the width of its column. *)
Definition pad (color : string -> string) (rowLengths : list nat)
    (column : cell) (columnIndex : nat) : result string :=
  match column with
  | None => Throw (TypeError "Cannot read property 'length' of null")
  | Some text =>
      let padding :=
        (Z.of_nat (nth columnIndex rowLengths 0%nat)
         - Z.of_nat (String.length text))%Z in
      if (0 <? padding)%Z
      then Ok (color text ++ repeat_string " " (Z.to_nat padding))
      else Ok (color text)
  end.

(** [row.map(callback)] from the column of index [columnIndex] on. *)
Fixpoint map_columns (color : string -> string) (rowLengths : list nat)
    (row : list cell) (columnIndex : nat) : result (list string) :=
  match row with
  | [] => Ok []
  | column :: rest =>
      and_then (pad color rowLengths column columnIndex) (fun c =>
      and_then (map_columns color rowLengths rest (S columnIndex))
               (fun cs => Ok (c :: cs)))
  end.

Section Chalk.

(** [chalk.gray], [chalk.bold] and [chalk.blue]. *)
Variables gray bold blue : string -> string.

(** One turn of the second [rows.forEach]: the text added to
    [outputString] for the row of index [rowIndex]. *)
Definition row_line (rowLengths : list nat) (row : list cell)
    (rowIndex : nat) : result string :=
  let color := if Nat.eqb rowIndex 0 then bold else blue in
  and_then (map_columns color rowLengths row 0) (fun coloredRows =>
  let rowString := String.concat " | " coloredRows in
  Ok ("| " ++ rowString ++ " |" ++ newline)).

Fixpoint row_lines (rowLengths : list nat) (rows : list (list cell))
    (rowIndex : nat) : result string :=
  match rows with
  | [] => Ok EmptyString
  | row :: rest =>
      and_then (row_line rowLengths row rowIndex) (fun line =>
      and_then (row_lines rowLengths rest (S rowIndex)) (fun lines =>
      Ok (line ++ lines)))
  end.

(** [rows[0].length]. *)
Definition noOfColumns (rows : list (list cell)) : result nat :=
  match rows with
  | row :: _ => Ok (List.length row)
  | [] => Throw (TypeError "Cannot read property 'length' of undefined")
  end.

(** The part of [printAvailableBrowserInfo] that turns the rows into the
    output string. *)
Definition outputString (rows : list (list cell)) : result string :=
  and_then (noOfColumns rows) (fun noOfColumns =>
  and_then (rowLengths_from rows 0 noOfColumns) (fun rowLengths =>
  let totalRowLength :=
    (fold_left Nat.add rowLengths 0 + (noOfColumns * 3 + 1))%nat in
  let border := gray (repeat_string "-" totalRowLength) ++ newline in
  and_then (row_lines rowLengths rows 0) (fun lines =>
  Ok (border ++ lines ++ border)))).

Definition header : list cell :=
  [Some "Browser Name"; Some "Browser Version"; Some "Path"].

(** The row pushed for one browser. *)
Definition browser_row (C : Class) : M (list cell) :=
  name <- LocalBrowser.getPrettyName ;;
  version <- getVersionNumber C ;;
  path <- getExecutablePath C ;;
  ret [Some name; Some (Number_toString version); path].

(** [browsers.forEach(browser => rows.push([...]))]: the rows pushed, in
    the order of the browsers. *)
Fixpoint browser_rows (browsers : list Browser) (w : World)
  : result (list (list cell)) * World :=
  match browsers with
  | [] => (Ok [], w)
  | browser :: rest =>
      match send browser browser_row w with
      | (Throw e, _, w') => (Throw e, w')
      | (Ok row, _, w') =>
          match browser_rows rest w' with
          | (Ok rows, w'') => (Ok (row :: rows), w'')
          | (Throw e, w'') => (Throw e, w'')
          end
      end
  end.

Variable getSupportedBrowsers : World -> result (list Browser) * World.

(** [printAvailableBrowserInfo(printToConsole)]: what is returned or
    thrown, the world it leaves, and what went to [console.log]. *)
Definition printAvailableBrowserInfo (printToConsole : jsval) (w : World)
  : result string * World * list string :=
  let printToConsole :=
    match printToConsole with
    | VUndefined => VBool true
    | given => given
    end in
  match SeleniumAssistant.getLocalBrowsers getSupportedBrowsers w with
  | (Throw e, w') => (Throw e, w', [])
  | (Ok browsers, w') =>
      match browser_rows browsers w' with
      | (Throw e, w'') => (Throw e, w'', [])
      | (Ok rows, w'') =>
          match outputString (header :: rows) with
          | Throw e => (Throw e, w'', [])
          | Ok out =>
              (Ok out, w'', if truthy printToConsole then [out] else [])
          end
      end
  end.

End Chalk.

End Table.

(** Calling a method [n] more times: the results in the order of the calls
    and the state after the last of them. *)
Fixpoint call_again {A} (method : M A) (n : nat) (s : State)
  : list (result A) * State :=
  match n with
  | O => ([], s)
  | S n' =>
      match method s with
      | (r, s') =>
          match call_again method n' s' with
          | (rs, s'') => (r :: rs, s'')
          end
      end
  end.


(** Further families used as sample inputs. *)
Module Samples.

(** A subclass of [LocalBrowser] that overrides the release names and the
    executable path and inherits everything else. *)
Definition plain (id driverModule : jsval) (executablePath : option string)
  : Class :=
  let base := LocalBrowser.abstract (fun _ => Ok tt) (ret id)
                (ret driverModule) in
  {| Browser_constructor := Browser_constructor base;
     getId := getId base;
     getDriverModule := getDriverModule base;
     getPrettyReleaseNames := Ok [("beta", "Beta")];
     getExecutablePath := ret executablePath;
     isBlackListed := isBlackListed base;
     getVersionNumber := getVersionNumber base;
     getSeleniumDriverBuilder := getSeleniumDriverBuilder base;
     _getMinSupportedVersion := _getMinSupportedVersion base |}.

Definition firefox : Class :=
  plain (VStr "firefox") (VStr "geckodriver") (Some "/usr/bin/firefox").

Definition opera : Class :=
  plain (VStr "opera") (VStr "operadriver") (Some "/usr/bin/opera").

Definition firefox_state : State :=
  {| this := Fixtures.instance firefox "stable" [];
     world := Fixtures.host "linux" ["/usr/bin/firefox"]
                (fun _ _ => Throw (Error "Command failed")) |}.

(** A browser object whose class forgot to override the path lookup. *)
Definition broken : Browser :=
  {| class_of := Fixtures.bare;
     fields := Fixtures.instance Fixtures.bare "beta" [] |}.

End Samples.

(** * Properties *)

Ltac run :=
  unfold bind, try_catch, ret, throw, gets, modify, lift, fs_lstatSync,
    set_rawVerstionString, with_world in *; simpl in *.

(** ** [isValid] *)

Section IsValid.

Variable C : Class.

(** X4: with a minimum supported version in force, the verdict is the
    version comparison alone: a version below the minimum is not valid
    although its executable is on disk, and [isBlackListed] is not
    consulted. *)
Lemma isValid_with_minimum (s s1 s2 s3 : State) (p : string) (m v : Z) :
  getExecutablePath C s = (Ok (Some p), s1) ->
  string_nonempty p = true ->
  lstatSync (world s1) p = Ok tt ->
  _getMinSupportedVersion C s1 = (Ok (Some m), s2) ->
  m <> 0 ->
  getVersionNumber C s2 = (Ok v, s3) ->
  LocalBrowser.isValid C s = (Ok (v >=? m), s3).
Proof.
  intros Hexe Hp Hstat Hmin Hm Hv.
  unfold LocalBrowser.isValid, LocalBrowser.isValid_probe. run.
  rewrite Hexe. simpl. rewrite Hp. simpl.
  rewrite Hstat, Hmin. simpl.
  destruct (m =? 0) eqn:E; [apply Z.eqb_eq in E; contradiction|].
  simpl. rewrite Hv. reflexivity.
Qed.

(** X5: without a minimum supported version, a browser whose
    [isBlackListed()] answers true is not valid, whether or not its
    executable is on disk. *)
Lemma isValid_blacklisted_without_minimum (s s1 s2 s3 : State)
    (p : string) :
  getExecutablePath C s = (Ok (Some p), s1) ->
  string_nonempty p = true ->
  _getMinSupportedVersion C s1 = (Ok None, s2) ->
  isBlackListed C s2 = (Ok true, s3) ->
  exists s', LocalBrowser.isValid C s = (Ok false, s').
Proof.
  intros Hexe Hp Hmin Hbl.
  unfold LocalBrowser.isValid, LocalBrowser.isValid_probe. run.
  rewrite Hexe. simpl. rewrite Hp. simpl.
  destruct (lstatSync (world s1) p); [|eauto].
  rewrite Hmin. simpl. rewrite Hbl. eauto.
Qed.

End IsValid.

(** C1, evaluated at a blacklisted Chrome 54 whose executable is on disk
    and whose family sets a minimum supported version of 50: the version
    is in the blacklist table and [isBlackListed()] answers true, yet
    [isValid()] returns true, because the branch of the minimum version
    returns before the blacklist is consulted. *)
Lemma isValid_blacklisted_above_minimum :
  let C := Fixtures.chrome54 in
  let s := Fixtures.chrome54_state in
  fst (getExecutablePath C s) = Ok (Some Fixtures.chrome_path)
  /\ lstatSync (world s) Fixtures.chrome_path = Ok tt
  /\ fst (getVersionNumber C s) = Ok 54
  /\ In 54 (map fst (_blacklist (this s)))
  /\ fst (isBlackListed C s) = Ok true
  /\ fst (_getMinSupportedVersion C s) = Ok (Some 50)
  /\ fst (LocalBrowser.isValid C s) = Ok true.
Proof.
  cbv zeta. repeat split; try reflexivity.
  simpl. left. reflexivity.
Qed.

(** ** [getRawVersionString] *)

(** C2 as stated fails: on a host where the executable fails on its first
    run and answers on the second, the first call returns null, the second
    call runs the executable again and returns a string; two calls, two
    probes, two different values. *)
Lemma getRawVersionString_retries_after_failure :
  let C := Fixtures.chrome54_nomin in
  let s0 := Fixtures.flaky_state in
  let s1 := snd (LocalBrowser.getRawVersionString C s0) in
  let s2 := snd (LocalBrowser.getRawVersionString C s1) in
  probes s0 = 0%nat
  /\ fst (LocalBrowser.getRawVersionString C s0) = Ok VNull
  /\ _rawVerstionString (this s1) = VNull
  /\ fst (LocalBrowser.getRawVersionString C s1)
     = Ok (VStr "Google Chrome 54.0.2840.59")
  /\ probes s2 = 2%nat.
Proof.
  cbv zeta. repeat split; reflexivity.
Qed.

(** C2, amended: a call that returns a non-empty string leaves it cached,
    so that the next call returns the identical value and changes nothing
    (no probe).  Where the executable is found at a fixed path, a call
    runs the executable at most once, and after a call that returned null
    (or an empty string) the next call runs it again: a failed probe is
    not cached. *)
Theorem getRawVersionString_twice (C : Class) (s s1 s2 : State)
    (r1 r2 : result jsval) :
  LocalBrowser.getRawVersionString C s = (r1, s1) ->
  LocalBrowser.getRawVersionString C s1 = (r2, s2) ->
  (forall v, r1 = Ok v -> truthy v = true -> r2 = Ok v /\ s2 = s1)
  /\ (forall p,
        string_nonempty p = true ->
        (forall s', getExecutablePath C s' = (Ok (Some p), s')) ->
        (probes s1 <= probes s + 1)%nat
        /\ (forall v, r1 = Ok v -> truthy v = false ->
              probes s2 = (probes s1 + 1)%nat)).
Proof.
  intros H1 H2. split.
  - intros v -> Hv.
    assert (Hc : _rawVerstionString (this s1) = v).
    { revert H1. unfold LocalBrowser.getRawVersionString. run.
      destruct (truthy (_rawVerstionString (this s))) eqn:Hcache.
      - intros [= <- <-]. reflexivity.
      - destruct (getExecutablePath C s) as [[ep|e] s'] eqn:Hexe;
          [|discriminate].
        destruct (LocalBrowser.no_path ep).
        + intros [= <- _]. discriminate.
        + unfold child_process_execSync. simpl.
          destruct (execSync _ _ _); simpl; intros [= <- <-]; reflexivity. }
    revert H2. unfold LocalBrowser.getRawVersionString at 1. run.
    rewrite Hc, Hv. intros [= <- <-]. split; reflexivity.
  - intros p Hp Hexe. split.
    + revert H1. unfold LocalBrowser.getRawVersionString, probes. run.
      destruct (truthy (_rawVerstionString (this s))).
      * intros [= _ <-]. lia.
      * rewrite Hexe. simpl. rewrite Hp. simpl.
        unfold child_process_execSync. simpl.
        destruct (execSync _ _ _); simpl; intros [= _ <-]; simpl; lia.
    + intros v -> Hv.
      assert (Hc : truthy (_rawVerstionString (this s1)) = false).
      { revert H1. unfold LocalBrowser.getRawVersionString. run.
        destruct (truthy (_rawVerstionString (this s))) eqn:Hcache.
        - intros [= <- <-]. exact Hv.
        - rewrite Hexe. simpl. rewrite Hp. simpl.
          unfold child_process_execSync. simpl.
          destruct (execSync _ _ _); simpl; intros [= <- <-]; simpl.
          + exact Hv.
          + reflexivity. }
      revert H2. unfold LocalBrowser.getRawVersionString, probes. run.
      rewrite Hc, Hexe. simpl. rewrite Hp. simpl.
      unfold child_process_execSync. simpl.
      destruct (execSync _ _ _); simpl; intros [= _ <-]; simpl; lia.
Qed.

(** The amended C2 at Chrome 54 on a host whose executable answers. *)
Lemma getRawVersionString_twice_witness :
  let C := Fixtures.chrome54_nomin in
  let s := Fixtures.chrome54_state in
  let s1 := snd (LocalBrowser.getRawVersionString C s) in
  let s2 := snd (LocalBrowser.getRawVersionString C s1) in
  fst (LocalBrowser.getRawVersionString C s1)
  = Ok (VStr "Google Chrome 54.0.2840.59")
  /\ s2 = s1 /\ (probes s1 <= probes s + 1)%nat.
Proof.
  cbv zeta.
  pose proof (getRawVersionString_twice Fixtures.chrome54_nomin
                Fixtures.chrome54_state _ _ _ _ eq_refl eq_refl) as [Hc Hp].
  destruct (Hc (VStr "Google Chrome 54.0.2840.59") eq_refl eq_refl)
    as [Hr Hs].
  destruct (Hp Fixtures.chrome_path eq_refl (fun s' => eq_refl)) as [Hb _].
  split; [|split].
  - rewrite <- Hr. reflexivity.
  - exact Hs.
  - exact Hb.
Defined.

(** ** [isValid] as a probe *)

(** C3 as stated fails: the lookup of the executable path is made before
    the [try] block, so what it throws leaves [isValid()].  Here the
    subclass leaves [getExecutablePath] as [LocalBrowser] declares it. *)
Lemma isValid_throws_on_path_lookup :
  fst (getExecutablePath Fixtures.bare Fixtures.bare_state)
  = Throw (Error "getExecutablePath() must be overriden by subclasses")
  /\ fst (LocalBrowser.isValid Fixtures.bare Fixtures.bare_state)
     = Throw (Error "getExecutablePath() must be overriden by subclasses").
Proof.
  split; reflexivity.
Qed.

(** Past the lookup of the executable path, [isValid] returns. *)
Lemma isValid_returns (C : Class) (s s1 : State) (p : option string) :
  getExecutablePath C s = (Ok p, s1) ->
  exists b s', LocalBrowser.isValid C s = (Ok b, s').
Proof.
  intros Hexe. unfold LocalBrowser.isValid. run. rewrite Hexe.
  destruct (LocalBrowser.no_path p); [eauto|].
  destruct (LocalBrowser.isValid_probe C (LocalBrowser.path_of p) s1)
    as [[b|e] s']; eauto.
Qed.

(** C3, amended: when the lookup of the executable path returns, [isValid()]
    returns a boolean and never throws, and whatever the stat of the path,
    the minimum-version lookup, the version parsing or the blacklist lookup
    throws is swallowed and the answer is false; an exception of the path
    lookup itself is passed on to the caller. *)
Theorem isValid_swallows_probe_failures (C : Class) (s : State) :
  (forall p s1,
      getExecutablePath C s = (Ok p, s1) ->
      (exists b s', LocalBrowser.isValid C s = (Ok b, s'))
      /\ (forall e s2,
            LocalBrowser.no_path p = false ->
            LocalBrowser.isValid_probe C (LocalBrowser.path_of p) s1
            = (Throw e, s2) ->
            LocalBrowser.isValid C s = (Ok false, s2)))
  /\ (forall e s1,
        getExecutablePath C s = (Throw e, s1) ->
        LocalBrowser.isValid C s = (Throw e, s1)).
Proof.
  split.
  - intros p s1 Hexe. split.
    + exact (isValid_returns C s s1 p Hexe).
    + unfold LocalBrowser.isValid. run. rewrite Hexe.
      intros e s2 Hp Hprobe. rewrite Hp, Hprobe. reflexivity.
  - intros e s1 Hexe. unfold LocalBrowser.isValid. run. rewrite Hexe.
    reflexivity.
Qed.

(** A browser whose executable was removed after it had been located. *)
Lemma isValid_swallows_probe_failures_witness :
  let C := Fixtures.chrome54 in
  let s := {| this := Fixtures.instance Fixtures.chrome54 "stable" [];
              world := Fixtures.host "linux" [] Fixtures.flaky_answers |} in
  getExecutablePath C s = (Ok (Some Fixtures.chrome_path), s)
  /\ LocalBrowser.isValid_probe C Fixtures.chrome_path s
     = (Throw (Error "ENOENT: no such file or directory"), s)
  /\ LocalBrowser.isValid C s = (Ok false, s).
Proof.
  cbv zeta. split; [reflexivity|]. split; [reflexivity|].
  eapply (proj1 (isValid_swallows_probe_failures Fixtures.chrome54 _)
            (Some Fixtures.chrome_path) _ eq_refl);
    reflexivity.
Defined.

(** ** [getSeleniumDriver] *)

(** Loading the driver module never throws once the name of the module has
    been read. *)
Lemma loadDriverModule_returns (C : Class) (s s0 : State) (name : jsval) :
  getDriverModule C s = (Ok name, s0) ->
  exists s1, LocalBrowser.loadDriverModule C s = (Ok tt, s1).
Proof.
  intros Hname.
  unfold LocalBrowser.loadDriverModule, LocalBrowser.node_require,
    LocalBrowser.node_path_dirname.
  run. rewrite Hname.
  destruct (truthy name); [|eauto].
  destruct (getDriverModule C s0) as [[name'|e] s0']; [|eauto].
  destruct (require (world s0') name' (env_PATH (world s0')))
    as [[driverModule|e] PATH']; simpl; [|eauto].
  destruct (getId C _) as [[id|e] s']; [|eauto].
  destruct (strict_eq id (VStr "opera")); [|eauto].
  destruct (path_dirname (world s') (module_path driverModule)); [|eauto].
  unfold LocalBrowser.append_PATH. run. eauto.
Qed.

(** The final [try] block always hands back a promise. *)
Lemma buildDriver_returns (C : Class) (s : State) :
  exists p s', LocalBrowser.buildDriver C s = (Ok p, s').
Proof.
  unfold LocalBrowser.buildDriver. run.
  destruct (getSeleniumDriverBuilder C s) as [[builder|e] s']; [|eauto].
  destruct (build builder) as [buildResult|e]; [|eauto].
  destruct (LocalBrowser.has_then buildResult) as [[|]|e]; eauto.
Qed.

(** C4: [getSeleniumDriver()] returns a promise and does not throw (the
    accessor [getDriverModule] of the parent class being one that returns).
    If obtaining the builder or calling [build()] throws, the promise is
    rejected with what was thrown; a session handed back directly is
    wrapped in a promise fulfilled with it; a deferred value handed back by
    [build()] is returned as it is. *)
Theorem getSeleniumDriver_never_throws (C : Class) (s s0 : State)
    (name : jsval) :
  getDriverModule C s = (Ok name, s0) ->
  exists s1 p s',
    LocalBrowser.loadDriverModule C s = (Ok tt, s1)
    /\ LocalBrowser.getSeleniumDriver C s = (Ok p, s')
    /\ (forall e s2,
          getSeleniumDriverBuilder C s1 = (Throw e, s2) ->
          p = Promise.reject e)
    /\ (forall builder s2,
          getSeleniumDriverBuilder C s1 = (Ok builder, s2) ->
          (forall e, build builder = Throw e -> p = Promise.reject e)
          /\ (forall session,
                build builder = Ok (Plain session) ->
                session <> VUndefined -> session <> VNull ->
                p = Promise.resolve session)
          /\ (forall deferred,
                build builder = Ok (Thenable deferred) -> p = deferred)).
Proof.
  intros Hname.
  destruct (loadDriverModule_returns C s s0 name Hname) as [s1 Hload].
  destruct (buildDriver_returns C s1) as (p & s' & Hbuild).
  exists s1, p, s'. split; [exact Hload|]. split.
  { unfold LocalBrowser.getSeleniumDriver, bind. rewrite Hload. exact Hbuild. }
  unfold LocalBrowser.buildDriver in Hbuild. run. split.
  - intros e s2 Hb. rewrite Hb in Hbuild. injection Hbuild as <- _.
    reflexivity.
  - intros builder s2 Hb. rewrite Hb in Hbuild. repeat split.
    + intros e He. rewrite He in Hbuild. injection Hbuild as <- _.
      reflexivity.
    + intros session Hs Hu Hn. rewrite Hs in Hbuild.
      destruct session; try contradiction; simpl in Hbuild;
        injection Hbuild as <- _; reflexivity.
    + intros deferred Hd. rewrite Hd in Hbuild. simpl in Hbuild.
      injection Hbuild as <- _. reflexivity.
Qed.

(** A family whose builder hands back the session itself. *)
Lemma getSeleniumDriver_never_throws_witness :
  let C := Fixtures.chrome_direct in
  let s := Fixtures.chrome54_state in
  getDriverModule C s = (Ok (VStr "chromedriver"), s)
  /\ fst (LocalBrowser.getSeleniumDriver C s)
     = Ok (Promise.resolve Fixtures.session).
Proof.
  cbv zeta. split; [reflexivity|].
  destruct (getSeleniumDriver_never_throws Fixtures.chrome_direct
              Fixtures.chrome54_state _ _ eq_refl)
    as (s1 & p & s' & Hload & Hrun & _ & Hbuilder).
  rewrite Hrun. simpl. f_equal.
  injection Hload as <-.
  destruct (Hbuilder _ _ eq_refl) as (_ & Hsession & _).
  apply Hsession; [reflexivity|discriminate|discriminate].
Defined.

(** ** [killWebDriver] *)

(** The first promise of [killWebDriver] is settled within the grace
    period, and it is fulfilled whenever [quit()] handed back a thenable. *)
Lemma quit_executor_settles (call : result returned) :
  exists d o,
    Promise.new (SeleniumAssistant.quit_executor call) = Some (d, o)
    /\ (d <= 2000)%N
    /\ (forall p, call = Ok (Thenable p) -> exists v, o = Promise.Fulfilled v).
Proof.
  destruct call as [[v|p]|e]; simpl.
  - eexists _, _. repeat split; [lia|discriminate].
  - destruct p as [[d [v|e]]|]; simpl.
    + destruct (N.ltb_spec d 2000); eexists _, _;
        (split; [reflexivity|]); (split; [lia|]); eauto.
    + destruct (N.ltb_spec d 2000); eexists _, _;
        (split; [reflexivity|]); (split; [lia|]); eauto.
    + eexists _, _. split; [reflexivity|]. split; [lia|]. eauto.
  - eexists _, _. repeat split; [lia|discriminate].
Qed.

(** With a thenable handed back by [quit()], the promise of [killWebDriver]
    is fulfilled between 2000 ms and 4000 ms after the call. *)
Lemma killWebDriver_fulfilled (p : Promise.t jsval) :
  exists d,
    fst (SeleniumAssistant.killWebDriver (HObject (Method (Ok (Thenable p)))))
    = Some (d, Promise.Fulfilled VUndefined)
    /\ (2000 <= d <= 2000 + 2000)%N.
Proof.
  unfold SeleniumAssistant.killWebDriver. cbn [fst].
  destruct (quit_executor_settles (Ok (Thenable p)))
    as (d & o & Hfirst & Hd & Hok).
  rewrite Hfirst. destruct (Hok p eq_refl) as [v ->]. simpl.
  eexists. split; [reflexivity|]. lia.
Qed.


(** C6: called with null or with undefined, [killWebDriver] hands back a
    promise that is already fulfilled, and neither calls [quit] nor sets a
    timer. *)
Theorem killWebDriver_nullish :
  SeleniumAssistant.killWebDriver HNull
  = (Some (0%N, Promise.Fulfilled VUndefined), [])
  /\ SeleniumAssistant.killWebDriver HUndefined
     = (Some (0%N, Promise.Fulfilled VUndefined), []).
Proof.
  split; reflexivity.
Qed.

(** C7: for a handle that is neither null nor undefined and has no [quit]
    method, [killWebDriver] returns (it does not throw) a promise that is
    rejected at once with an [Error] whose message names the missing quit
    method; nothing is fulfilled and [quit] is not called. *)
Theorem killWebDriver_without_quit (driver : Handle) :
  driver <> HNull -> driver <> HUndefined ->
  has_quit_method driver = false ->
  exists message,
    SeleniumAssistant.killWebDriver driver
    = (Some (0%N, Promise.Rejected (Error message)), [])
    /\ message = "Unable to find a quit method on the web driver."
    /\ String.index 0 "quit method" message <> None.
Proof.
  intros Hnull Hundef Hquit.
  destruct driver as [| |[v|call]]; try contradiction; try discriminate.
  eexists. split; [reflexivity|]. split; [reflexivity|].
  vm_compute. discriminate.
Qed.

Lemma killWebDriver_without_quit_witness :
  fst (SeleniumAssistant.killWebDriver Fixtures.not_a_driver)
  = Promise.reject (Error "Unable to find a quit method on the web driver.").
Proof.
  destruct (killWebDriver_without_quit Fixtures.not_a_driver)
    as (message & Hkill & -> & _);
    [discriminate|discriminate|reflexivity|].
  rewrite Hkill. reflexivity.
Defined.

(** C10: when [quit()] hands back a promise that is rejected, at whatever
    moment and for whatever reason, the promise of [killWebDriver] is
    fulfilled all the same: the rejection is not passed on. *)
Theorem killWebDriver_absorbs_rejection (d : Promise.time) (e : exn) :
  let quitPromise := Some (d, Promise.Rejected e) in
  exists d',
    fst (SeleniumAssistant.killWebDriver
           (HObject (Method (Ok (Thenable quitPromise)))))
    = Some (d', Promise.Fulfilled VUndefined).
Proof.
  cbv zeta.
  destruct (killWebDriver_fulfilled (Some (d, Promise.Rejected e)))
    as (d' & Hd' & _).
  eauto.
Qed.


(** ** The constructor and [getReleaseName] *)

(** C9: an instance that the constructor has built answers
    [getReleaseName()] with the very release it was built with, and that
    release is one of the strings 'stable', 'beta' and 'unstable'; with
    any other release value the constructor throws. *)
Theorem constructor_release (C : Class) (config : Config) (release : jsval)
    (blacklist : list (Z * string)) :
  (forall o w,
      LocalBrowser.constructor C config release blacklist = Ok o ->
      LocalBrowser.getReleaseName {| this := o; world := w |}
      = (Ok release, {| this := o; world := w |})
      /\ (release = VStr "stable" \/ release = VStr "beta"
          \/ release = VStr "unstable"))
  /\ (release <> VStr "stable" -> release <> VStr "beta" ->
      release <> VStr "unstable" ->
      exists e, LocalBrowser.constructor C config release blacklist = Throw e).
Proof.
  assert (Heq : forall name,
             strict_eq release (VStr name) = true -> release = VStr name).
  { intros name H. destruct release; try discriminate.
    simpl in H. apply String.eqb_eq in H. congruence. }
  unfold LocalBrowser.constructor, and_then. split.
  - intros o w.
    destruct (Browser_constructor C config); [|discriminate].
    destruct (LocalBrowser.nonempty_string (config_prettyName config));
      [|discriminate].
    simpl.
    destruct (strict_eq release (VStr "stable")) eqn:E1;
      destruct (strict_eq release (VStr "beta")) eqn:E2;
      destruct (strict_eq release (VStr "unstable")) eqn:E3;
      simpl; try discriminate;
      (destruct (getPrettyReleaseNames C); [|discriminate]);
      intros [= <-]; (split; [reflexivity|]); auto.
  - intros H1 H2 H3.
    destruct (Browser_constructor C config); [|eauto].
    destruct (LocalBrowser.nonempty_string (config_prettyName config));
      [|simpl; eauto].
    simpl.
    destruct (strict_eq release (VStr "stable")) eqn:E1;
      [apply Heq in E1; contradiction|].
    destruct (strict_eq release (VStr "beta")) eqn:E2;
      [apply Heq in E2; contradiction|].
    destruct (strict_eq release (VStr "unstable")) eqn:E3;
      [apply Heq in E3; contradiction|].
    simpl. eauto.
Qed.

(** Chrome built for its beta channel, and an attempt at a channel that
    does not exist. *)
Lemma constructor_release_witness :
  (exists o,
      LocalBrowser.constructor Fixtures.chrome54 Fixtures.config
        (VStr "beta") [] = Ok o
      /\ fst (LocalBrowser.getReleaseName
                {| this := o; world := Fixtures.linux_host |})
         = Ok (VStr "beta")
      /\ _prettyName o = "Google Chrome Beta")
  /\ (exists e,
        LocalBrowser.constructor Fixtures.chrome54 Fixtures.config
          (VStr "nightly") [] = Throw e).
Proof.
  split.
  - eexists. split; [reflexivity|]. split; [|reflexivity].
    destruct (proj1 (constructor_release Fixtures.chrome54 Fixtures.config
                       (VStr "beta") []) _ Fixtures.linux_host eq_refl)
      as [Hname _].
    rewrite Hname. reflexivity.
  - apply (proj2 (constructor_release Fixtures.chrome54 Fixtures.config
                    (VStr "nightly") [])); discriminate.
Defined.

(** ** [getLocalBrowsers] *)

Section Discovery.

Variable getSupportedBrowsers : World -> result (list Browser) * World.




End Discovery.



(** * Further properties of the two classes *)

(** ** The constructor *)

Lemma string_nonempty_app (a b : string) :
  string_nonempty a = true -> string_nonempty (a ++ b) = true.
Proof.
  destruct a; [discriminate|reflexivity].
Qed.

(** X1: the pretty name of a constructed instance is not empty; it is the
    pretty name of the configuration, followed, when the family has a
    non-empty name for the release, by a space and that name, and by
    nothing otherwise.  The instance holds the blacklist it was given. *)
Theorem constructor_prettyName (C : Class) (config : Config)
    (release : jsval) (blacklist : list (Z * string)) (o : Fields) :
  LocalBrowser.constructor C config release blacklist = Ok o ->
  string_nonempty (_prettyName o) = true
  /\ (exists base releaseNames,
        config_prettyName config = VStr base
        /\ getPrettyReleaseNames C = Ok releaseNames
        /\ _prettyName o
           = match LocalBrowser.lookup release releaseNames with
             | VStr (String c suffix) => base ++ " " ++ String c suffix
             | _ => base
             end)
  /\ _blacklist o = blacklist.
Proof.
  unfold LocalBrowser.constructor, and_then.
  destruct (Browser_constructor C config); [|discriminate].
  destruct (config_prettyName config) as [| | | |base| |] eqn:Hname;
    try discriminate.
  simpl. destruct (string_nonempty base) eqn:Hbase; [|discriminate]. simpl.
  destruct (negb (strict_eq release (VStr "stable"))
            && negb (strict_eq release (VStr "beta"))
            && negb (strict_eq release (VStr "unstable"))); [discriminate|].
  destruct (getPrettyReleaseNames C) as [releaseNames|]; [|discriminate].
  intros [= <-]. simpl.
  assert (Hlookup : forall names,
             match LocalBrowser.lookup release names with
             | VStr _ | VUndefined => True
             | _ => False
             end).
  { induction names as [|[k v] names IH]; [exact I|].
    cbn [LocalBrowser.lookup].
    destruct (strict_eq (VStr k) release); [exact I|exact IH]. }
  specialize (Hlookup releaseNames).
  split; [|split; [|reflexivity]].
  - destruct (truthy (LocalBrowser.lookup release releaseNames));
      [apply string_nonempty_app|]; exact Hbase.
  - exists base, releaseNames. split; [reflexivity|]. split; [reflexivity|].
    destruct (LocalBrowser.lookup release releaseNames) as [| | | |[|c suffix]| |];
      simpl; try reflexivity; contradiction.
Qed.

Lemma constructor_prettyName_witness :
  _prettyName (Fixtures.instance Fixtures.chrome54 "beta" [])
  = "Google Chrome Beta"
  /\ _prettyName (Fixtures.instance Fixtures.chrome54 "unstable" [])
     = "Google Chrome".
Proof.
  split.
  - destruct (constructor_prettyName Fixtures.chrome54 Fixtures.config
                (VStr "beta") [] _ eq_refl)
      as (_ & (base & names & Hb & Hn & Hp) & _).
    injection Hb as <-. injection Hn as <-. exact Hp.
  - destruct (constructor_prettyName Fixtures.chrome54 Fixtures.config
                (VStr "unstable") [] _ eq_refl)
      as (_ & (base & names & Hb & Hn & Hp) & _).
    injection Hb as <-. injection Hn as <-. exact Hp.
Defined.

(** X2: [LocalBrowser] itself cannot be instantiated: with the static
    [getPrettyReleaseNames] left as the class declares it, the constructor
    throws for every configuration, release and blacklist. *)
Theorem abstract_constructor_throws (super : Config -> result unit)
    (getId getDriverModule : M jsval) (config : Config) (release : jsval)
    (blacklist : list (Z * string)) :
  exists e,
    LocalBrowser.constructor
      (LocalBrowser.abstract super getId getDriverModule)
      config release blacklist = Throw e.
Proof.
  unfold LocalBrowser.constructor, and_then. simpl.
  destruct (super config); [|eauto].
  destruct (negb (LocalBrowser.nonempty_string (config_prettyName config)));
    [eauto|].
  destruct (negb (strict_eq release (VStr "stable"))
            && negb (strict_eq release (VStr "beta"))
            && negb (strict_eq release (VStr "unstable"))); eauto.
Qed.

(** ** [isValid] under the default policy *)

(** X3: for a family that keeps [isBlackListed] and
    [_getMinSupportedVersion] as [LocalBrowser] declares them and finds its
    executable at a fixed place, [isValid()] is true exactly when that
    place is a non-empty path whose stat succeeds; the call changes
    nothing. *)
Theorem isValid_default_policy (C : Class) (p : option string) (s : State) :
  (forall s', getExecutablePath C s' = (Ok p, s')) ->
  (forall s', isBlackListed C s' = (Ok false, s')) ->
  (forall s', _getMinSupportedVersion C s' = (Ok None, s')) ->
  LocalBrowser.isValid C s
  = (Ok (negb (LocalBrowser.no_path p)
         && match lstatSync (world s) (LocalBrowser.path_of p) with
            | Ok _ => true
            | Throw _ => false
            end), s).
Proof.
  intros Hexe Hbl Hmin.
  unfold LocalBrowser.isValid, LocalBrowser.isValid_probe. run.
  rewrite Hexe.
  destruct (LocalBrowser.no_path p); [reflexivity|]. simpl.
  destruct (lstatSync (world s) (LocalBrowser.path_of p)); [|reflexivity].
  rewrite Hmin. simpl. rewrite Hbl. reflexivity.
Qed.

Lemma isValid_default_policy_witness :
  LocalBrowser.isValid Samples.firefox Samples.firefox_state
  = (Ok true, Samples.firefox_state).
Proof.
  exact (isValid_default_policy Samples.firefox (Some "/usr/bin/firefox")
           Samples.firefox_state
           (fun _ => eq_refl) (fun _ => eq_refl) (fun _ => eq_refl)).
Defined.

(** Firefox 44 installed where the family asks for at least 47. *)
Lemma isValid_with_minimum_witness :
  let C := Fixtures.family (Some Fixtures.chrome_path) 44 (Some 47)
             Fixtures.no_builder in
  LocalBrowser.isValid C Fixtures.chrome54_state
  = (Ok false, Fixtures.chrome54_state).
Proof.
  cbv zeta.
  apply (isValid_with_minimum _ Fixtures.chrome54_state
           Fixtures.chrome54_state Fixtures.chrome54_state
           Fixtures.chrome54_state Fixtures.chrome_path 47 44);
    try reflexivity.
  discriminate.
Defined.

Lemma isValid_blacklisted_without_minimum_witness :
  exists s',
    LocalBrowser.isValid Fixtures.chrome54_nomin Fixtures.chrome54_state
    = (Ok false, s').
Proof.
  apply (isValid_blacklisted_without_minimum Fixtures.chrome54_nomin
           Fixtures.chrome54_state Fixtures.chrome54_state
           Fixtures.chrome54_state Fixtures.chrome54_state
           Fixtures.chrome_path);
    reflexivity.
Defined.

(** ** More on [getRawVersionString] *)

(** A call that returns leaves what it returned in the cache, unless the
    executable was not found. *)
Lemma getRawVersionString_caches (C : Class) (s s1 : State) (v : jsval) :
  LocalBrowser.getRawVersionString C s = (Ok v, s1) ->
  truthy v = true ->
  _rawVerstionString (this s1) = v.
Proof.
  unfold LocalBrowser.getRawVersionString. run.
  destruct (truthy (_rawVerstionString (this s))) eqn:Hcache.
  - intros [= <- <-] _. reflexivity.
  - destruct (getExecutablePath C s) as [[ep|e] s'] eqn:Hexe;
      [|discriminate].
    destruct (LocalBrowser.no_path ep).
    + intros [= <- _]. discriminate.
    + unfold child_process_execSync. simpl.
      destruct (execSync _ _ _); simpl; intros [= <- <-] _; reflexivity.
Qed.

(** X6: where the lookup of the executable path returns,
    [getRawVersionString()] never throws: a failure of the executable is
    swallowed.  It returns null, the output of the executable, or the value
    it found cached. *)
Theorem getRawVersionString_returns (C : Class) (s : State) :
  path_lookup_returns C ->
  exists v s',
    LocalBrowser.getRawVersionString C s = (Ok v, s')
    /\ (v = VNull \/ (exists out, v = VStr out)
        \/ v = _rawVerstionString (this s)).
Proof.
  intros Hlookup. unfold LocalBrowser.getRawVersionString. run.
  destruct (truthy (_rawVerstionString (this s))); [eauto 6|].
  destruct (Hlookup s) as (p & s1 & ->).
  destruct (LocalBrowser.no_path p); [eauto 6|].
  unfold child_process_execSync. simpl.
  destruct (execSync _ _ _); simpl; eauto 8.
Qed.

Lemma getRawVersionString_returns_witness :
  fst (LocalBrowser.getRawVersionString Samples.firefox Samples.firefox_state)
  = Ok VNull.
Proof.
  destruct (getRawVersionString_returns Samples.firefox Samples.firefox_state)
    as (v & s' & Hrun & _).
  - intros s. eexists _, _. reflexivity.
  - rewrite Hrun. vm_compute in Hrun. injection Hrun as <- _. reflexivity.
Defined.

(** X7: once a call has returned a non-empty string, any number of further
    calls return that very string and leave the state as it is: the
    executable is not run again and the path is not looked up again. *)
Theorem getRawVersionString_cached_forever (C : Class) (s s1 : State)
    (v : jsval) (n : nat) :
  LocalBrowser.getRawVersionString C s = (Ok v, s1) ->
  truthy v = true ->
  call_again (LocalBrowser.getRawVersionString C) n s1
  = (repeat (Ok v) n, s1).
Proof.
  intros Hrun Hv.
  pose proof (getRawVersionString_caches C s s1 v Hrun Hv) as Hcache.
  assert (Hagain : LocalBrowser.getRawVersionString C s1 = (Ok v, s1)).
  { unfold LocalBrowser.getRawVersionString. run.
    rewrite Hcache, Hv. reflexivity. }
  induction n as [|n IH]; simpl; [reflexivity|].
  rewrite Hagain, IH. reflexivity.
Qed.

Lemma getRawVersionString_cached_forever_witness :
  let C := Fixtures.chrome54_nomin in
  let s1 := snd (LocalBrowser.getRawVersionString C Fixtures.chrome54_state) in
  fst (call_again (LocalBrowser.getRawVersionString C) 3 s1)
  = repeat (Ok (VStr "Google Chrome 54.0.2840.59")) 3
  /\ probes (snd (call_again (LocalBrowser.getRawVersionString C) 3 s1))
     = 1%nat.
Proof.
  cbv zeta.
  pose proof (getRawVersionString_cached_forever Fixtures.chrome54_nomin
                Fixtures.chrome54_state
                (snd (LocalBrowser.getRawVersionString Fixtures.chrome54_nomin
                        Fixtures.chrome54_state))
                (VStr "Google Chrome 54.0.2840.59") 3 eq_refl eq_refl) as H.
  rewrite H. split; reflexivity.
Defined.

(** X8: while the executable is not found (the lookup answers null or an
    empty path), every call returns null, runs no process and caches
    nothing, however often it is repeated. *)
Theorem getRawVersionString_without_executable (C : Class)
    (p : option string) (s : State) (n : nat) :
  (forall s', getExecutablePath C s' = (Ok p, s')) ->
  LocalBrowser.no_path p = true ->
  truthy (_rawVerstionString (this s)) = false ->
  call_again (LocalBrowser.getRawVersionString C) n s
  = (repeat (Ok VNull) n, s).
Proof.
  intros Hexe Hp Hcache.
  assert (Hcall : LocalBrowser.getRawVersionString C s = (Ok VNull, s)).
  { unfold LocalBrowser.getRawVersionString. run.
    rewrite Hcache, Hexe. simpl. rewrite Hp. reflexivity. }
  induction n as [|n IH]; simpl; [reflexivity|].
  rewrite Hcall, IH. reflexivity.
Qed.

Lemma getRawVersionString_without_executable_witness :
  let s := {| this := fields Fixtures.missing; world := Fixtures.linux_host |} in
  call_again (LocalBrowser.getRawVersionString (class_of Fixtures.missing)) 2 s
  = ([Ok VNull; Ok VNull], s).
Proof.
  cbv zeta.
  exact (getRawVersionString_without_executable (class_of Fixtures.missing)
           None
           {| this := fields Fixtures.missing; world := Fixtures.linux_host |}
           2 (fun _ => eq_refl) eq_refl eq_refl).
Defined.

(** X9: while the executable is found but fails each time it is run,
    every call returns null and runs it once more: [n] calls make [n]
    probes, each with the command line ["<path>" --version]. *)
Theorem getRawVersionString_retries (C : Class) (p : string) (e : exn)
    (n : nat) (s : State) :
  (forall s', getExecutablePath C s' = (Ok (Some p), s')) ->
  string_nonempty p = true ->
  (forall k command, execSync (world s) k command = Throw e) ->
  truthy (_rawVerstionString (this s)) = false ->
  let '(results, s') :=
    call_again (LocalBrowser.getRawVersionString C) n s in
  results = repeat (Ok VNull) n
  /\ spawned (world s')
     = (repeat (LocalBrowser.version_command p) n ++ spawned (world s))%list.
Proof.
  intros Hexe Hp. revert s.
  induction n as [|n IH]; intros s Hfail Hcache; simpl; [auto|].
  assert (Hcall : exists s1,
             LocalBrowser.getRawVersionString C s = (Ok VNull, s1)
             /\ execSync (world s1) = execSync (world s)
             /\ _rawVerstionString (this s1) = VNull
             /\ spawned (world s1)
                = LocalBrowser.version_command p :: spawned (world s)).
  { unfold LocalBrowser.getRawVersionString. run.
    rewrite Hcache, Hexe. simpl. rewrite Hp. simpl.
    unfold child_process_execSync. simpl. rewrite Hfail. simpl.
    eexists. repeat split. }
  destruct Hcall as (s1 & -> & Hsame & Hnull & Hlog).
  specialize (IH s1).
  destruct (call_again (LocalBrowser.getRawVersionString C) n s1)
    as [results s'].
  destruct IH as [-> Hspawned].
  - intros k command. rewrite Hsame. apply Hfail.
  - rewrite Hnull. reflexivity.
  - split; [reflexivity|].
    rewrite Hspawned, Hlog.
    change (LocalBrowser.version_command p :: spawned (world s))
      with ([LocalBrowser.version_command p] ++ spawned (world s))%list.
    rewrite app_assoc. f_equal.
    clear. induction n as [|n IH]; simpl; [reflexivity|].
    rewrite IH. reflexivity.
Qed.

Lemma getRawVersionString_retries_witness :
  probes (snd (call_again (LocalBrowser.getRawVersionString Samples.firefox)
                 3 Samples.firefox_state))
  = 3%nat.
Proof.
  pose proof (getRawVersionString_retries Samples.firefox "/usr/bin/firefox"
                (Error "Command failed") 3 Samples.firefox_state
                (fun _ => eq_refl) eq_refl (fun _ _ => eq_refl) eq_refl) as H.
  destruct (call_again (LocalBrowser.getRawVersionString Samples.firefox)
              3 Samples.firefox_state) as [results s'].
  destruct H as [_ H]. unfold probes. simpl. rewrite H. reflexivity.
Defined.

(** ** More on [getSeleniumDriver] *)

(** X10: the first statement of [getSeleniumDriver()] does not throw, and
    beyond what loading the driver module does to [process.env.PATH] it
    touches the search path for Opera alone.  With accessors that only
    read: when the browser names no driver module, nothing changes;
    otherwise only [PATH] changes, and it ends as [require] left it,
    extended, when the id is 'opera' and the module has loaded, by the path
    delimiter and the directory of the module's [path]. *)
Theorem loadDriverModule_PATH (C : Class) (name id : jsval) (s : State) :
  (forall s', getDriverModule C s' = (Ok name, s')) ->
  (forall s', getId C s' = (Ok id, s')) ->
  exists s',
    LocalBrowser.loadDriverModule C s = (Ok tt, s')
    /\ this s' = this s
    /\ spawned (world s') = spawned (world s)
    /\ platform (world s') = platform (world s)
    /\ (truthy name = false -> s' = s)
    /\ (truthy name = true ->
        env_PATH (world s')
        = match require (world s) name (env_PATH (world s)) with
          | (Ok driverModule, PATH) =>
              if strict_eq id (VStr "opera") then
                match path_dirname (world s) (module_path driverModule) with
                | Ok dir => PATH ++ path_delimiter (world s) ++ dir
                | Throw _ => PATH
                end
              else PATH
          | (Throw _, PATH) => PATH
          end).
Proof.
  intros Hname Hid.
  unfold LocalBrowser.loadDriverModule, LocalBrowser.node_require,
    LocalBrowser.node_path_dirname, LocalBrowser.append_PATH.
  run. rewrite Hname.
  destruct (truthy name) eqn:Htruthy.
  - rewrite Hname.
    destruct (require (world s) name (env_PATH (world s)))
      as [[driverModule|e] PATH]; simpl.
    + rewrite Hid.
      destruct (strict_eq id (VStr "opera")).
      * simpl.
        destruct (path_dirname (world s) (module_path driverModule))
          as [dir|e]; simpl;
          eexists; (split; [reflexivity|]); simpl;
          repeat split; discriminate.
      * eexists. split; [reflexivity|]. simpl. repeat split; discriminate.
    + eexists. split; [reflexivity|]. simpl. repeat split; discriminate.
  - exists s. split; [reflexivity|]. repeat split; discriminate.
Qed.

Lemma loadDriverModule_PATH_witness :
  let s := {| this := Fixtures.instance Samples.opera "stable" [];
              world := Fixtures.linux_host |} in
  env_PATH (world (snd (LocalBrowser.loadDriverModule Samples.opera s)))
  = "/usr/bin:/opt/driver/bin"
  /\ env_PATH (world (snd (LocalBrowser.loadDriverModule Samples.firefox
                             Samples.firefox_state)))
     = "/usr/bin:/opt/driver/bin".
Proof.
  cbv zeta. split.
  - destruct (loadDriverModule_PATH Samples.opera (VStr "operadriver")
                (VStr "opera")
                {| this := Fixtures.instance Samples.opera "stable" [];
                   world := Fixtures.linux_host |}
                (fun _ => eq_refl) (fun _ => eq_refl))
      as (s' & Hrun & _ & _ & _ & _ & Hpath).
    rewrite Hrun. simpl. rewrite (Hpath eq_refl). reflexivity.
  - destruct (loadDriverModule_PATH Samples.firefox (VStr "geckodriver")
                (VStr "firefox") Samples.firefox_state
                (fun _ => eq_refl) (fun _ => eq_refl))
      as (s' & Hrun & _ & _ & _ & _ & Hpath).
    rewrite Hrun. simpl. rewrite (Hpath eq_refl). reflexivity.
Defined.

(** X11: a builder whose [build()] hands back undefined or null does not
    yield a promise fulfilled with nothing: the read of [.then] fails
    inside the [try] block and [getSeleniumDriver()] returns a promise
    rejected with that [TypeError]. *)
Theorem getSeleniumDriver_nullish_build (C : Class) (s s1 s2 : State)
    (builder : Builder) (v : jsval) :
  LocalBrowser.loadDriverModule C s = (Ok tt, s1) ->
  getSeleniumDriverBuilder C s1 = (Ok builder, s2) ->
  build builder = Ok (Plain v) ->
  v = VUndefined \/ v = VNull ->
  exists message,
    LocalBrowser.getSeleniumDriver C s
    = (Ok (Promise.reject (TypeError message)), s2).
Proof.
  intros Hload Hbuilder Hbuild Hv.
  unfold LocalBrowser.getSeleniumDriver, LocalBrowser.buildDriver. run.
  rewrite Hload, Hbuilder, Hbuild.
  destruct Hv as [-> | ->]; simpl; eauto.
Qed.

Lemma getSeleniumDriver_nullish_build_witness :
  let C := Fixtures.family (Some Fixtures.chrome_path) 54 None
             (ret {| build := Ok (Plain VUndefined) |}) in
  exists message,
    fst (LocalBrowser.getSeleniumDriver C Fixtures.chrome54_state)
    = Ok (Promise.reject (TypeError message)).
Proof.
  cbv zeta.
  destruct (getSeleniumDriver_nullish_build
              (Fixtures.family (Some Fixtures.chrome_path) 54 None
                 (ret {| build := Ok (Plain VUndefined) |}))
              Fixtures.chrome54_state _ _
              {| build := Ok (Plain VUndefined) |} VUndefined
              eq_refl eq_refl eq_refl (or_introl eq_refl))
    as [message Hrun].
  exists message. rewrite Hrun. reflexivity.
Defined.

(** ** More on [killWebDriver] *)

(** X12: with a [quit()] that hands back a thenable, the promise of
    [killWebDriver] is fulfilled exactly 2000 ms after the thenable
    settles, if that happens within the 2000 ms of grace, and 4000 ms after
    the call otherwise; the settle period is waited for even when [quit()]
    is done at once. *)
Theorem killWebDriver_settle_time (p : Promise.t jsval) :
  fst (SeleniumAssistant.killWebDriver (HObject (Method (Ok (Thenable p)))))
  = Some (match p with
          | Some (d, _) => (N.min d 2000 + 2000)%N
          | None => 4000%N
          end, Promise.Fulfilled VUndefined).
Proof.
  destruct p as [[d [v|e]]|]; cbn -[N.ltb N.min N.add];
    try reflexivity;
    destruct (N.ltb_spec d 2000); cbn -[N.min N.add];
    repeat f_equal; lia.
Qed.

(** X13: the promise of [killWebDriver] always settles, and it is rejected
    in three cases only: the handle has no [quit] method, [quit()] throws
    (the promise is then rejected with what was thrown), or [quit()] hands
    back something that is not a thenable.  In every other case it is
    fulfilled with undefined. *)
Theorem killWebDriver_outcome (driver : Handle) :
  exists d o,
    fst (SeleniumAssistant.killWebDriver driver) = Some (d, o)
    /\ match driver with
       | HObject (Data _) =>
           o = Promise.Rejected
                 (Error "Unable to find a quit method on the web driver.")
       | HObject (Method (Throw e)) => o = Promise.Rejected e
       | HObject (Method (Ok (Plain _))) =>
           exists message, o = Promise.Rejected (TypeError message)
       | _ => o = Promise.Fulfilled VUndefined
       end.
Proof.
  destruct driver as [| |[v|[[v|p]|e]]]; try (eexists _, _; split; reflexivity).
  - eexists _, _. split; [reflexivity|]. eauto.
  - destruct (killWebDriver_fulfilled p) as (d & Hd & _). eauto.
Qed.


(** ** More on [getLocalBrowsers] *)

Section MoreDiscovery.

Variable getSupportedBrowsers : World -> result (list Browser) * World.




Lemma Array_filter_aborts (b : Browser) (e : exn) (post : list Browser) :
  (forall s, getExecutablePath (class_of b) s = (Throw e, s)) ->
  forall pre,
    Forall (fun b' => path_lookup_returns (class_of b')) pre ->
    forall w, exists w',
      SeleniumAssistant.Array_filter
        (fun b' => send b' LocalBrowser.isValid) (pre ++ b :: post)%list w
      = (Throw e, w').
Proof.
  intros Hthrow. induction 1 as [|a pre Ha _ IH]; intros w; simpl.
  - unfold send, LocalBrowser.isValid, bind. rewrite Hthrow. eauto.
  - destruct (Ha {| this := fields a; world := w |}) as (p & s1 & Hexe).
    destruct (isValid_returns _ _ _ _ Hexe) as (keep & s' & Hvalid).
    unfold send at 1. rewrite Hvalid.
    destruct (IH (world s')) as [w' ->]. eauto.
Qed.

(** X16: one browser whose path lookup throws stops discovery: on a
    supported platform, if the browsers before it honour the contract of
    [getExecutablePath], [getLocalBrowsers()] throws what that lookup
    threw, and the browsers after it are not asked. *)
Theorem getLocalBrowsers_aborts (w w1 : World) (pre post : list Browser)
    (b : Browser) (e : exn) :
  SeleniumAssistant.unsupported_platform w = false ->
  getSupportedBrowsers w = (Ok (pre ++ b :: post)%list, w1) ->
  Forall (fun b' => path_lookup_returns (class_of b')) pre ->
  (forall s, getExecutablePath (class_of b) s = (Throw e, s)) ->
  exists w',
    SeleniumAssistant.getLocalBrowsers getSupportedBrowsers w
    = (Throw e, w').
Proof.
  intros Hplatform Hknown Hpre Hthrow.
  unfold SeleniumAssistant.getLocalBrowsers.
  rewrite Hplatform, Hknown.
  apply Array_filter_aborts; assumption.
Qed.

End MoreDiscovery.


Lemma getLocalBrowsers_aborts_witness :
  exists w',
    SeleniumAssistant.getLocalBrowsers
      (fun w => (Ok [Fixtures.installed; Samples.broken; Fixtures.missing], w))
      Fixtures.linux_host
    = (Throw (Error "getExecutablePath() must be overriden by subclasses"),
       w').
Proof.
  apply (getLocalBrowsers_aborts _ Fixtures.linux_host Fixtures.linux_host
           [Fixtures.installed] [Fixtures.missing] Samples.broken).
  - reflexivity.
  - reflexivity.
  - repeat constructor. intros s. eexists _, _. reflexivity.
  - intros s. reflexivity.
Defined.

(** ** The table of [printAvailableBrowserInfo] *)

Lemma length_append (a b : string) :
  String.length (a ++ b) = (String.length a + String.length b)%nat.
Proof.
  induction a as [|c a IH]; simpl; [reflexivity|]. rewrite IH. reflexivity.
Qed.

Lemma append_assoc (a b c : string) : (a ++ b) ++ c = a ++ (b ++ c).
Proof.
  induction a as [|x a IH]; simpl; [reflexivity|]. rewrite IH. reflexivity.
Qed.

Lemma append_empty (a : string) : a ++ EmptyString = a.
Proof.
  induction a as [|x a IH]; simpl; [reflexivity|]. rewrite IH. reflexivity.
Qed.

Lemma length_repeat_string (c : ascii) (n : nat) :
  String.length (Table.repeat_string (String c EmptyString) n) = n.
Proof.
  induction n as [|n IH]; simpl; [reflexivity|]. rewrite IH. reflexivity.
Qed.

Lemma unlines_app (a b : list string) :
  Table.unlines (a ++ b) = Table.unlines a ++ Table.unlines b.
Proof.
  induction a as [|l a IH]; simpl; [reflexivity|].
  rewrite IH, !append_assoc. reflexivity.
Qed.

Lemma fold_left_add (l : list nat) (a : nat) :
  fold_left Nat.add l a = (a + list_sum l)%nat.
Proof.
  revert a. induction l as [|x l IH]; intros a; simpl; [lia|].
  rewrite IH. lia.
Qed.

Lemma length_concat_sep (sep : string) (l : list string) :
  l <> [] ->
  String.length (String.concat sep l)
  = (list_sum (map String.length l)
     + String.length sep * (List.length l - 1))%nat.
Proof.
  induction l as [|x l IH]; [contradiction|]. intros _.
  destruct l as [|y l].
  - simpl. lia.
  - change (String.concat sep (x :: y :: l))
      with (x ++ sep ++ String.concat sep (y :: l)).
    rewrite !length_append, IH by discriminate.
    simpl map. simpl list_sum. simpl List.length. lia.
Qed.

Lemma map_nth_seq (ws : list nat) :
  map (fun k => nth k ws 0%nat) (seq 0 (List.length ws)) = ws.
Proof.
  induction ws as [|x ws IH]; simpl; [reflexivity|].
  f_equal. rewrite <- seq_shift, map_map. exact IH.
Qed.

Lemma column_length_ok (row : list Table.cell) (i n : nat) :
  Table.column_length row i = Ok n ->
  exists text, nth_error row i = Some (Some text) /\ n = String.length text.
Proof.
  unfold Table.column_length.
  destruct (nth_error row i) as [[text|]|]; try discriminate.
  intros [= <-]. eauto.
Qed.

(** The width of a column is at least the length of each of its cells. *)
Lemma max_length_bounds (rows : list (list Table.cell)) (i : nat) :
  forall current m,
    Table.max_length rows i current = Ok m ->
    (current <= m)%nat
    /\ Forall (fun row => exists n,
                 Table.column_length row i = Ok n /\ (n <= m)%nat) rows.
Proof.
  induction rows as [|row rows IH]; intros current m; simpl.
  - intros [= <-]. split; [lia|constructor].
  - destruct (Table.column_length row i) as [n|e] eqn:Hn; [|discriminate].
    simpl. intros H. apply IH in H as [Hmax Hall].
    split; [lia|]. constructor; [|exact Hall].
    exists n. split; [exact Hn|lia].
Qed.

Lemma rowLengths_from_bounds (rows : list (list Table.cell)) :
  forall count i ws,
    Table.rowLengths_from rows i count = Ok ws ->
    List.length ws = count
    /\ forall k, (k < count)%nat ->
         Forall (fun row => exists n,
                   Table.column_length row (i + k) = Ok n
                   /\ (n <= nth k ws 0)%nat) rows.
Proof.
  induction count as [|count IH]; intros i ws; simpl.
  - intros [= <-]. split; [reflexivity|]. intros k Hk. lia.
  - destruct (Table.max_length rows i 0) as [m|e] eqn:Hm; [|discriminate].
    simpl.
    destruct (Table.rowLengths_from rows (S i) count) as [rest|e] eqn:Hrest;
      [|discriminate].
    simpl. intros [= <-].
    destruct (IH _ _ Hrest) as [Hlen Hbound].
    split; [simpl; congruence|].
    intros [|k] Hk.
    + rewrite Nat.add_0_r. apply (max_length_bounds _ _ _ _ Hm).
    + rewrite Nat.add_succ_r. apply (Hbound k). lia.
Qed.

Lemma pad_plain (ws : list nat) (text : string) (i : nat) :
  (String.length text <= nth i ws 0)%nat ->
  exists c,
    Table.pad (fun x => x) ws (Some text) i = Ok c
    /\ String.length c = nth i ws 0%nat.
Proof.
  intros Hle. unfold Table.pad.
  destruct (Z.ltb_spec 0
              (Z.of_nat (nth i ws 0%nat) - Z.of_nat (String.length text))).
  - eexists. split; [reflexivity|].
    rewrite length_append, length_repeat_string. lia.
  - eexists. split; [reflexivity|]. lia.
Qed.

Lemma map_columns_plain (ws : list nat) :
  forall cols i,
    (forall k, (k < List.length cols)%nat ->
       exists n, Table.column_length cols k = Ok n
                 /\ (n <= nth (i + k) ws 0)%nat) ->
    exists cs,
      Table.map_columns (fun x => x) ws cols i = Ok cs
      /\ map String.length cs
         = map (fun k => nth k ws 0%nat) (seq i (List.length cols)).
Proof.
  induction cols as [|column cols IH]; intros i Hcols; simpl.
  - exists []. split; reflexivity.
  - destruct (Hcols 0%nat) as (n & Hn & Hle); [simpl; lia|].
    apply column_length_ok in Hn as (text & Htext & ->).
    simpl in Htext. injection Htext as ->.
    rewrite Nat.add_0_r in Hle.
    destruct (pad_plain ws text i Hle) as (c & -> & Hc). simpl.
    destruct (IH (S i)) as (cs & -> & Hcs).
    { intros k Hk. destruct (Hcols (S k)) as (n & Hn & Hle');
        [simpl; lia|].
      exists n. split; [exact Hn|]. rewrite Nat.add_succ_r in Hle'. exact Hle'. }
    simpl. eexists. split; [reflexivity|]. simpl. rewrite Hc, Hcs.
    reflexivity.
Qed.

(** A row as wide as the table gives a line as long as the border. *)
Lemma row_line_plain (ws : list nat) (row : list Table.cell) (rowIndex : nat) :
  ws <> [] ->
  List.length row = List.length ws ->
  (forall k, (k < List.length ws)%nat ->
     exists n, Table.column_length row k = Ok n /\ (n <= nth k ws 0)%nat) ->
  exists line,
    Table.row_line (fun x => x) (fun x => x) ws row rowIndex
    = Ok (line ++ Table.newline)
    /\ String.length line
       = (list_sum ws + (List.length ws * 3 + 1))%nat.
Proof.
  intros Hws Hlen Hbound. unfold Table.row_line.
  destruct (map_columns_plain ws row 0) as (cs & Hcs & Hlens).
  { intros k Hk. apply Hbound. lia. }
  assert (Hmap : Table.map_columns
                   (if Nat.eqb rowIndex 0 then fun x => x else fun x => x)
                   ws row 0 = Ok cs).
  { destruct (Nat.eqb rowIndex 0); exact Hcs. }
  rewrite Hmap. simpl and_then.
  rewrite Hlen, map_nth_seq in Hlens.
  assert (Hcount : List.length cs = List.length ws).
  { rewrite <- Hlens, length_map. reflexivity. }
  exists ("| " ++ String.concat " | " cs ++ " |").
  split.
  - rewrite !append_assoc. reflexivity.
  - rewrite !length_append, length_concat_sep, Hlens, Hcount.
    + destruct ws; [contradiction|]. simpl. lia.
    + intros ->. destruct ws; [contradiction|discriminate].
Qed.

Lemma row_lines_plain (ws : list nat) (rows : list (list Table.cell)) :
  ws <> [] ->
  Forall (fun row =>
            List.length row = List.length ws
            /\ forall k, (k < List.length ws)%nat ->
                 exists n, Table.column_length row k = Ok n
                           /\ (n <= nth k ws 0)%nat) rows ->
  forall rowIndex, exists lines,
    Table.row_lines (fun x => x) (fun x => x) ws rows rowIndex
    = Ok (Table.unlines lines)
    /\ List.length lines = List.length rows
    /\ Forall (fun line =>
                 String.length line
                 = (list_sum ws + (List.length ws * 3 + 1))%nat) lines.
Proof.
  intros Hws. induction 1 as [|row rows [Hlen Hbound] _ IH];
    intros rowIndex; simpl.
  - exists []. repeat split. constructor.
  - destruct (row_line_plain ws row rowIndex Hws Hlen Hbound)
      as (line & -> & Hline).
    destruct (IH (S rowIndex)) as (lines & -> & Hcount & Hall).
    exists (line :: lines). simpl. split.
    + rewrite append_assoc. reflexivity.
    + split; [congruence|]. constructor; assumption.
Qed.

Lemma browser_rows_shape (browsers : list Browser) :
  forall w rows w',
    Table.browser_rows browsers w = (Ok rows, w') ->
    List.length rows = List.length browsers
    /\ Forall (fun row => List.length row = 3%nat) rows.
Proof.
  induction browsers as [|b browsers IH]; intros w rows w'; simpl.
  - intros [= <- _]. split; [reflexivity|constructor].
  - destruct (send b Table.browser_row w) as [[[row|e] b'] w1] eqn:Hsend;
      [|discriminate].
    destruct (Table.browser_rows browsers w1) as [[rest|e] w2] eqn:Hrest;
      [|discriminate].
    intros [= <- _]. destruct (IH _ _ _ Hrest) as [Hlen Hall].
    split; [simpl; congruence|]. constructor; [|exact Hall].
    revert Hsend. unfold send, Table.browser_row, LocalBrowser.getPrettyName.
    run.
    destruct (getVersionNumber (class_of b) _) as [[v|e] s1]; simpl;
      [|discriminate].
    destruct (getExecutablePath (class_of b) s1) as [[p|e] s2]; simpl;
      [|discriminate].
    intros [= <- _ _]. reflexivity.
Qed.

Section Printing.

Variable getSupportedBrowsers : World -> result (list Browser) * World.

(** X17: with colours switched off (each chalk style handing back its
    argument), the table that [printAvailableBrowserInfo] returns is
    rectangular: the text is a border of dashes, one line for the header
    and one for each discovered browser, and the same border again, and
    all these lines have the same length. *)
Theorem printAvailableBrowserInfo_rectangular (printToConsole : jsval)
    (w w' : World) (out : string) (console : list string) :
  Table.printAvailableBrowserInfo (fun x => x) (fun x => x) (fun x => x)
    getSupportedBrowsers printToConsole w = (Ok out, w', console) ->
  exists width lines found w1,
    SeleniumAssistant.getLocalBrowsers getSupportedBrowsers w
    = (Ok found, w1)
    /\ out = Table.unlines
               (Table.repeat_string "-" width :: lines
                ++ [Table.repeat_string "-" width])%list
    /\ List.length lines = S (List.length found)
    /\ Forall (fun line => String.length line = width) lines.
Proof.
  unfold Table.printAvailableBrowserInfo.
  destruct (SeleniumAssistant.getLocalBrowsers getSupportedBrowsers w)
    as [[found|e] w1]; [|discriminate].
  destruct (Table.browser_rows found w1) as [[rows|e] w2] eqn:Hrows;
    [|discriminate].
  destruct (Table.outputString (fun x => x) (fun x => x) (fun x => x)
              (Table.header :: rows)) as [text|e] eqn:Hout; [|discriminate].
  intros [= <- _ _].
  apply browser_rows_shape in Hrows as [Hcount Hshape].
  revert Hout. unfold Table.outputString. cbn [Table.noOfColumns and_then].
  change (List.length Table.header) with 3%nat.
  destruct (Table.rowLengths_from (Table.header :: rows) 0 3)
    as [ws|e] eqn:Hws; [|discriminate].
  cbn [and_then].
  destruct (rowLengths_from_bounds _ _ _ _ Hws) as [Hlen Hbound].
  assert (Hne : ws <> []) by (intros ->; discriminate).
  destruct (row_lines_plain ws (Table.header :: rows) Hne) with (rowIndex := 0%nat)
    as (lines & -> & Hlines & Hall).
  { assert (Hthree : Forall (fun row => List.length row = 3%nat)
                       (Table.header :: rows))
      by (constructor; [reflexivity|exact Hshape]).
    rewrite Forall_forall in *. intros row Hin. split.
    - rewrite Hlen. apply Hthree. exact Hin.
    - intros k Hk. rewrite Hlen in Hk.
      specialize (Hbound k Hk). rewrite Forall_forall in Hbound.
      apply (Hbound row Hin). }
  cbn [and_then]. intros [= <-].
  rewrite fold_left_add.
  exists (0 + list_sum ws + (3 * 3 + 1))%nat, lines, found, w1.
  split; [reflexivity|]. split.
  - cbn [Table.unlines]. rewrite unlines_app. cbn [Table.unlines].
    rewrite !append_assoc, append_empty. reflexivity.
  - split; [simpl in Hlines; congruence|].
    rewrite Hlen in Hall. exact Hall.
Qed.

(** X18: [printAvailableBrowserInfo] writes to the console exactly the
    string it returns, and only when its argument is undefined or truthy;
    when it throws, nothing has been written.  On a platform other than
    'darwin' and 'linux' it throws the error of [getLocalBrowsers] and
    leaves the world as it was. *)
Theorem printAvailableBrowserInfo_console (gray bold blue : string -> string)
    (printToConsole : jsval) (w : World) :
  let '(r, w', console) :=
    Table.printAvailableBrowserInfo gray bold blue getSupportedBrowsers
      printToConsole w in
  match r with
  | Throw _ => console = []
  | Ok out =>
      console
      = if strict_eq printToConsole VUndefined || truthy printToConsole
        then [out] else []
  end
  /\ (SeleniumAssistant.unsupported_platform w = true ->
      r = Throw (Error "Sorry this library only supports OS X and Linux.")
      /\ w' = w /\ console = []).
Proof.
  unfold Table.printAvailableBrowserInfo, SeleniumAssistant.getLocalBrowsers.
  destruct (SeleniumAssistant.unsupported_platform w).
  - split; [reflexivity|]. auto.
  - destruct (getSupportedBrowsers w) as [[known|e] w1];
      [|split; [reflexivity|discriminate]].
    destruct (SeleniumAssistant.Array_filter _ known w1) as [[found|e] w2];
      [|split; [reflexivity|discriminate]].
    destruct (Table.browser_rows found w2) as [[rows|e] w3];
      [|split; [reflexivity|discriminate]].
    destruct (Table.outputString gray bold blue (Table.header :: rows));
      [|split; [reflexivity|discriminate]].
    split; [|discriminate].
    destruct printToConsole as [| |[|]|n|t|id|e]; try reflexivity.
Qed.

End Printing.

Lemma printAvailableBrowserInfo_rectangular_witness :
  fst (fst (Table.printAvailableBrowserInfo (fun x => x) (fun x => x)
              (fun x => x) Fixtures.supported VUndefined Fixtures.linux_host))
  = Ok (Table.unlines
          [Table.repeat_string "-" 67;
           "| Browser Name         | Browser Version | Path                   |";
           "| Google Chrome Stable | 54              | /usr/bin/google-chrome |";
           Table.repeat_string "-" 67]).
Proof.
  destruct (Table.printAvailableBrowserInfo (fun x => x) (fun x => x)
              (fun x => x) Fixtures.supported VUndefined Fixtures.linux_host)
    as [[[out|e] w'] console] eqn:Hrun.
  - destruct (printAvailableBrowserInfo_rectangular Fixtures.supported
                VUndefined Fixtures.linux_host w' out console Hrun)
      as (width & lines & found & w1 & _ & _ & _ & _).
    vm_compute in Hrun. injection Hrun as <- _ _. reflexivity.
  - vm_compute in Hrun. discriminate.
Defined.

(** On a Windows host nothing is printed and the platform error is thrown. *)
Lemma printAvailableBrowserInfo_console_witness :
  Table.printAvailableBrowserInfo (fun x => x) (fun x => x) (fun x => x)
    Fixtures.supported VUndefined
    (Fixtures.host "win32" [] Fixtures.flaky_answers)
  = (Throw (Error "Sorry this library only supports OS X and Linux."),
     Fixtures.host "win32" [] Fixtures.flaky_answers, []).
Proof.
  pose proof (printAvailableBrowserInfo_console Fixtures.supported
                (fun x => x) (fun x => x) (fun x => x) VUndefined
                (Fixtures.host "win32" [] Fixtures.flaky_answers)) as H.
  destruct (Table.printAvailableBrowserInfo (fun x => x) (fun x => x)
              (fun x => x) Fixtures.supported VUndefined
              (Fixtures.host "win32" [] Fixtures.flaky_answers))
    as [[r w'] console].
  destruct H as [_ H]. destruct (H eq_refl) as (-> & -> & ->). reflexivity.
Defined.
